(** * Image_Forge: the canvas component's history engine and layer controls

    A shallow embedding of the React component [Canvas] (the variant with
    element colour, delete and layer controls), whose closures [saveState],
    [undo], [redo], [deleteSelected], [addShape], [addText],
    [updateSelectedObject], [moveLayer], [bringToFront] and [sendToBack]
    mutate two shared objects: the fabric canvas held in the [canvas] state
    and the history object held in [historyRef].

    The component is embedded as functions in a state-and-exception monad
    over the record [State].  The fabric canvas is an external collaborator:
    the methods it has are modelled after the spec's Scene Surface
    contract; the four z-order methods that the layer controls call are
    not methods of the canvas class the component imports, and calling
    them throws.  The text codec [JSON.stringify] / [JSON.parse] is an
    interface ([JSONCodec], with its laws [JSONLaws]) that has a reference
    instance.

    Layout: the model (JavaScript values, the fabric canvas, the state, the
    closures, the image upload and the export, the earlier revision), the
    vocabulary of the properties, the reference codec and the concrete
    runs; then the facts, the properties C1 to C10, the further properties
    X1 to X18 of the history, the objects, the export, the layer controls
    and the earlier revision, and the witnesses and counterexamples on
    concrete runs. *)

From Stdlib Require Import List String Ascii ZArith Bool Arith Lia.
From Stdlib Require Import DecimalString DecimalZ DecimalNat.
Import ListNotations.

Local Open Scope string_scope.
Local Open Scope list_scope.
Local Open Scope Z_scope.

(* ================================================================== *)
(** ** JavaScript values the component relies on *)

Module JS.

(** [a.push(x)]: the array grows at its end. *)
Definition push {A : Type} (a : list A) (x : A) : list A := a ++ [x].

(** [a[a.length - 1]]: [None] stands for [undefined]. *)
Fixpoint peek {A : Type} (a : list A) : option A :=
  match a with
  | [] => None
  | [x] => Some x
  | _ :: r => peek r
  end.

(** [a.pop()]: the removed last element ([None] for [undefined]) and the
    array that is left. *)
Definition pop {A : Type} (a : list A) : option A * list A :=
  (peek a, removelast a).

(** Truthiness of a string: only the empty string is falsy. *)
Definition truthy (s : string) : bool :=
  match s with
  | EmptyString => false
  | String _ _ => true
  end.

(** What a JavaScript call leaves behind: a returned value or a thrown
    exception.  [JSON.parse] throws a [SyntaxError]; the call of a method
    that the object does not have throws a [TypeError]. *)
Inductive Exn : Type := SyntaxError | TypeError.

Inductive Outcome (A : Type) : Type :=
| Returned (a : A)
| Thrown (e : Exn).
Arguments Returned {A} a.
Arguments Thrown {A} e.

End JS.
Import JS.

(* ================================================================== *)
(** ** The fabric canvas (external collaborator) *)

Module Fabric.

(** The [type] tag of a fabric object. *)
Inductive ObjectType : Type :=
| rect | circle | triangle | line | i_text | image.

Definition ObjectType_eqb (a b : ObjectType) : bool :=
  match a, b with
  | rect, rect | circle, circle | triangle, triangle
  | line, line | i_text, i_text | image, image => true
  | _, _ => false
  end.

(** The string [obj.type] evaluates to. *)
Definition type_name (t : ObjectType) : string :=
  match t with
  | rect => "rect"
  | circle => "circle"
  | triangle => "triangle"
  | line => "line"
  | i_text => "i-text"
  | image => "image"
  end.

(** The serialisable properties of an object: the options the component
    passes to a constructor or to [set].  [None] is a property the
    component never supplied (the library's default).  Numbers are the
    integers the component writes; line end points are [x1 y1 x2 y2]. *)
Record Props : Type := mkProps {
  type : ObjectType;
  left : option Z;
  top : option Z;
  width : option Z;
  height : option Z;
  radius : option Z;
  points : option (Z * Z * Z * Z);
  fill : option string;
  stroke : option string;
  strokeWidth : option Z;
  text : option string;
  fontFamily : option string;
  fontSize : option Z;
  scaledWidth : option Z
}.

Definition blank (t : ObjectType) : Props :=
  mkProps t None None None None None None None None None None None None None.

(** An object on the JavaScript heap: its reference (identity, used for
    selection and removal only) and its properties. *)
Record Object : Type := mkObject {
  ref : nat;
  props : Props
}.

(** The canvas: objects in paint order (index 0 paints first), the
    active selection (a reference), the background, and the number of
    [renderAll] calls so far. *)
Record Canvas : Type := mkCanvas {
  _objects : list Object;
  _activeObject : option nat;
  backgroundColor : string;
  renders : nat
}.

(** What [canvas.toJSON()] returns: the objects' properties in paint
    order and the background. *)
Record CanvasJSON : Type := mkJSON {
  objects : list Props;
  background : string
}.

Definition is_ref (r : nat) (o : Object) : bool := Nat.eqb (ref o) r.
Definition not_ref (r : nat) (o : Object) : bool := negb (Nat.eqb (ref o) r).

(** Modelled from the spec: the external library's [new Canvas(el, options)];
    an empty object list, no selection, the given background. *)
Definition create (bg : string) : Canvas := mkCanvas [] None bg 0.

(** Modelled from the spec: the external library's [canvas.add(obj)]
    ([addObject]); the object is appended, so it paints topmost. *)
Definition add (c : Canvas) (o : Object) : Canvas :=
  mkCanvas (_objects c ++ [o]) (_activeObject c) (backgroundColor c) (renders c).

(** Modelled from the spec: the external library's [canvas.remove(obj)]
    ([removeObject]); the object leaves the list and, being gone, also
    stops being the selection. *)
Definition remove (c : Canvas) (r : nat) : Canvas :=
  mkCanvas (filter (not_ref r) (_objects c))
           (match _activeObject c with
            | Some a => if Nat.eqb a r then None else Some a
            | None => None
            end)
           (backgroundColor c) (renders c).

(** Modelled from the spec: the external library's
    [canvas.getActiveObject()]; the selected object, looked up in the
    canvas's own list. *)
Definition getActiveObject (c : Canvas) : option Object :=
  match _activeObject c with
  | Some r => find (is_ref r) (_objects c)
  | None => None
  end.

(** Modelled from the spec: the external library's
    [canvas.setActiveObject(obj)]. *)
Definition setActiveObject (c : Canvas) (r : nat) : Canvas :=
  mkCanvas (_objects c) (Some r) (backgroundColor c) (renders c).

(** Modelled from the spec: the external library's [canvas.renderAll()]. *)
Definition renderAll (c : Canvas) : Canvas :=
  mkCanvas (_objects c) (_activeObject c) (backgroundColor c) (S (renders c)).

(** Modelled from the spec: the external library's [obj.set(options)];
    the object lives in the canvas's list, so the update is seen there. *)
Definition set (c : Canvas) (r : nat) (f : Props -> Props) : Canvas :=
  mkCanvas (map (fun o => if is_ref r o then mkObject (ref o) (f (props o)) else o)
                (_objects c))
           (_activeObject c) (backgroundColor c) (renders c).

(** Modelled from the spec: the external library's [canvas.toJSON()]
    ([serializeState]); deterministic, no effect on the canvas. *)
Definition toJSON (c : Canvas) : CanvasJSON :=
  mkJSON (map props (_objects c)) (backgroundColor c).

(** The objects a snapshot describes, built anew on the heap from
    reference [next] on. *)
Fixpoint enliven (next : nat) (ps : list Props) : list Object :=
  match ps with
  | [] => []
  | p :: r => mkObject next p :: enliven (S next) r
  end.

(** Modelled from the spec: what the external library's
    [canvas.loadFromJSON(json, ...)] ([loadState]) does to the canvas
    when the load settles; the whole object list and the background are
    replaced by the snapshot's, the current objects (and with them the
    selection) are discarded.  The load itself renders nothing. *)
Definition loadFromJSON (next : nat) (c : Canvas) (j : CanvasJSON) : Canvas :=
  mkCanvas (enliven next (objects j)) None (background j) (renders c).

End Fabric.

Definition FabricCanvas : Type := Fabric.Canvas.

(* ================================================================== *)
(** ** The text codec: [JSON.stringify] and [JSON.parse] *)

(** [JSON_parse] is [None] where [JSON.parse] throws, or where the text
    does not describe a canvas. *)
Class JSONCodec : Type := {
  JSON_stringify : Fabric.CanvasJSON -> string;
  JSON_parse : string -> option Fabric.CanvasJSON
}.

(** What the history engine needs of the codec: parsing a stringified
    canvas gives it back, and stringifying an object never gives the empty
    (falsy) string. *)
Class JSONLaws (codec : JSONCodec) : Prop := {
  JSON_parse_stringify : forall j, JSON_parse (JSON_stringify j) = Some j;
  JSON_stringify_truthy : forall j, truthy (JSON_stringify j) = true
}.

(* ================================================================== *)
(** ** The component's state *)

(** [historyRef.current]: two arrays of snapshot strings, oldest first. *)
Record History : Type := mkHistory {
  past : list string;
  future : list string
}.

(** Everything the component's closures read and write: the [canvas]
    state ([None] is [null], before the mount effect), the four style
    states, the history object, the toasts shown so far (oldest first) and
    the next free heap reference. *)
Record State : Type := mkState {
  canvas : option FabricCanvas;
  fontSize : Z;
  fontFamily : string;
  fontColor : string;
  elementColor : string;
  historyRef : History;
  toasts : list string;
  heap : nat
}.

(** The [useState] / [useRef] initial values. *)
Definition initialState : State :=
  mkState None 20 "Arial" "#000000" "#e2e8f0" (mkHistory [] []) [] 0.

Definition with_canvas (v : option FabricCanvas) (st : State) : State :=
  mkState v (fontSize st) (fontFamily st) (fontColor st) (elementColor st)
          (historyRef st) (toasts st) (heap st).

Definition with_history (h : History) (st : State) : State :=
  mkState (canvas st) (fontSize st) (fontFamily st) (fontColor st) (elementColor st)
          h (toasts st) (heap st).

Definition with_toasts (t : list string) (st : State) : State :=
  mkState (canvas st) (fontSize st) (fontFamily st) (fontColor st) (elementColor st)
          (historyRef st) t (heap st).

Definition with_heap (n : nat) (st : State) : State :=
  mkState (canvas st) (fontSize st) (fontFamily st) (fontColor st) (elementColor st)
          (historyRef st) (toasts st) n.

Definition with_fontSize (v : Z) (st : State) : State :=
  mkState (canvas st) v (fontFamily st) (fontColor st) (elementColor st)
          (historyRef st) (toasts st) (heap st).

Definition with_fontFamily (v : string) (st : State) : State :=
  mkState (canvas st) (fontSize st) v (fontColor st) (elementColor st)
          (historyRef st) (toasts st) (heap st).

Definition with_fontColor (v : string) (st : State) : State :=
  mkState (canvas st) (fontSize st) (fontFamily st) v (elementColor st)
          (historyRef st) (toasts st) (heap st).

Definition with_elementColor (v : string) (st : State) : State :=
  mkState (canvas st) (fontSize st) (fontFamily st) (fontColor st) v
          (historyRef st) (toasts st) (heap st).

(* ================================================================== *)
(** ** The monad of the component's closures *)

(** A closure runs on the state and leaves a state behind, whether it
    returns or throws: what it wrote before throwing stays written. *)
Definition M (A : Type) : Type := State -> Outcome A * State.

Definition ret {A : Type} (a : A) : M A := fun st => (Returned a, st).

Definition bind {A B : Type} (m : M A) (k : A -> M B) : M B :=
  fun st =>
    match m st with
    | (Returned a, st') => k a st'
    | (Thrown e, st') => (Thrown e, st')
    end.

Definition throw {A : Type} (e : Exn) : M A := fun st => (Thrown e, st).
Definition gets {A : Type} (f : State -> A) : M A := fun st => (Returned (f st), st).
Definition modify (f : State -> State) : M unit := fun st => (Returned tt, f st).

Declare Scope js_scope.
Delimit Scope js_scope with js.
Notation "x <- m ;; k" := (bind m (fun x => k))
  (at level 100, m at next level, right associativity) : js_scope.
Notation "m ;; k" := (bind m (fun _ => k))
  (at level 100, right associativity) : js_scope.
Local Open Scope js_scope.

(** [n] calls in a row; a throw ends the row. *)
Fixpoint times (n : nat) (m : M unit) : M unit :=
  match n with
  | O => ret tt
  | S k => m ;; times k m
  end.

(** The state a run ends in. *)
Definition exec {A : Type} (m : M A) (st : State) : State := snd (m st).

(* ================================================================== *)
(** ** The component's closures *)

Section Component.

Context {codec : JSONCodec}.

(** [toast(msg)]: one more notice on the user's screen. *)
Definition toast (msg : string) : M unit :=
  modify (fun st => with_toasts (toasts st ++ [msg]) st).

(** [if (!canvas) return;] in front of a closure's body. *)
Definition guard_canvas (body : M unit) : M unit :=
  fun st =>
    match canvas st with
    | None => (Returned tt, st)
    | Some _ => body st
    end.

(** A call [k(canvas)] on the canvas object as it is at the call. *)
Definition on_canvas (k : FabricCanvas -> M unit) : M unit :=
  fun st =>
    match canvas st with
    | None => (Returned tt, st)
    | Some c => k c st
    end.

(** A canvas method that updates the canvas object in place. *)
Definition canvas_do (f : FabricCanvas -> FabricCanvas) : M unit :=
  modify (fun st => with_canvas (option_map f (canvas st)) st).

(** [canvas.getActiveObject()]. *)
Definition canvas_getActiveObject : M (option Fabric.Object) :=
  gets (fun st =>
          match canvas st with
          | Some c => Fabric.getActiveObject c
          | None => None
          end).

(** [new Rect(options)] and the like: a fresh object on the heap. *)
Definition new (p : Fabric.Props) : M Fabric.Object :=
  fun st => (Returned (Fabric.mkObject (heap st) p), with_heap (S (heap st)) st).

(** The ['object:added'] handler registered by the mount effect. *)
Definition on_object_added (target : Fabric.Object) : M unit :=
  toast ("Layer added: " ++ Fabric.type_name (Fabric.type (Fabric.props target))).

(** [canvas.add(obj)], which fires ['object:added']. *)
Definition canvas_add (o : Fabric.Object) : M unit :=
  canvas_do (fun c => Fabric.add c o) ;;
  on_object_added o.

Fixpoint for_each {A : Type} (l : list A) (k : A -> M unit) : M unit :=
  match l with
  | [] => ret tt
  | a :: r => k a ;; for_each r k
  end.

(** [canvas.loadFromJSON(json, reviver)].  The named imports of line 2
    ([Canvas], [Rect], [IText], ...) are the exports of fabric 6 and later.
    There the second argument is a reviver: it is called once for each
    object of the snapshot as that object is built, while the canvas still
    holds what it held; then the snapshot's objects replace the canvas's
    (each one fires ['object:added']).  For a snapshot without objects the
    reviver is never called.  The call returns a promise that settles
    after the calling closure has returned; the load is taken to settle
    before the next user event, and is run here as part of the call. *)
Definition canvas_loadFromJSON (json : Fabric.CanvasJSON) (reviver : M unit) : M unit :=
  on_canvas (fun _ =>
    for_each (Fabric.objects json) (fun _ => reviver) ;;
    on_canvas (fun c st =>
      let c' := Fabric.loadFromJSON (heap st) c json in
      for_each (Fabric._objects c') on_object_added
        (with_heap (heap st + List.length (Fabric.objects json))%nat
                   (with_canvas (Some c') st)))).

(** [JSON.parse(text)] of an array element; [undefined] and malformed
    text throw. *)
Definition parse (text : option string) : M Fabric.CanvasJSON :=
  match text with
  | None => throw SyntaxError
  | Some s =>
      match JSON_parse s with
      | Some j => ret j
      | None => throw SyntaxError
      end
  end.

Definition saveState (fabricCanvas : FabricCanvas) : M unit :=
  let state := JSON_stringify (Fabric.toJSON fabricCanvas) in
  modify (fun st =>
            with_history (mkHistory (push (past (historyRef st)) state) []) st).

(** The ['object:modified'] handler registered by the mount effect. *)
Definition on_object_modified : M unit := on_canvas saveState.

(** The mount effect; [canvasRef_current] says whether the canvas element
    is there.  The resize listener only changes the display dimensions,
    which the model does not carry. *)
Definition mount (canvasRef_current : bool) : M unit :=
  if negb canvasRef_current then ret tt
  else
    let fabricCanvas := Fabric.create "#ffffff" in
    modify (with_canvas (Some fabricCanvas)) ;;
    toast "Canvas ready!" ;;
    saveState fabricCanvas.

Definition undo : M unit :=
  fun st =>
    match canvas st with
    | None => (Returned tt, st)
    | Some _ =>
        if (List.length (past (historyRef st)) <=? 1)%nat then (Returned tt, st)
        else
          let (current, past1) := pop (past (historyRef st)) in
          let st1 := with_history (mkHistory past1 (future (historyRef st))) st in
          match current with
          | Some cur =>
              if truthy cur then
                let st2 := with_history (mkHistory past1 (push (future (historyRef st1)) cur)) st1 in
                let previousState := peek (past (historyRef st2)) in
                (json <- parse previousState ;;
                 canvas_loadFromJSON json
                   (canvas_do Fabric.renderAll ;; toast "Undo successful!")) st2
              else (Returned tt, st1)
          | None => (Returned tt, st1)
          end
    end.

Definition redo : M unit :=
  fun st =>
    match canvas st with
    | None => (Returned tt, st)
    | Some _ =>
        if (List.length (future (historyRef st)) =? 0)%nat then (Returned tt, st)
        else
          let (nextState, future1) := pop (future (historyRef st)) in
          let st1 := with_history (mkHistory (past (historyRef st)) future1) st in
          match nextState with
          | Some next =>
              if truthy next then
                let st2 := with_history (mkHistory (push (past (historyRef st1)) next) future1) st1 in
                (json <- parse (Some next) ;;
                 canvas_loadFromJSON json
                   (canvas_do Fabric.renderAll ;; toast "Redo successful!")) st2
              else (Returned tt, st1)
          | None => (Returned tt, st1)
          end
    end.

Definition deleteSelected : M unit :=
  guard_canvas (
    activeObject <- canvas_getActiveObject ;;
    match activeObject with
    | Some o =>
        canvas_do (fun c => Fabric.remove c (Fabric.ref o)) ;;
        canvas_do Fabric.renderAll ;;
        toast "Element deleted!" ;;
        on_canvas saveState
    | None => ret tt
    end).

(** The options of the [switch] in [addShape]; [None] is its [default]
    branch. *)
Definition shape_options (type : string) (elementColor : string) : option Fabric.Props :=
  if String.eqb type "rectangle" then
    Some (Fabric.mkProps Fabric.rect (Some 100) (Some 100) (Some 100) (Some 100)
            None None (Some elementColor) None None None None None None)
  else if String.eqb type "circle" then
    Some (Fabric.mkProps Fabric.circle (Some 100) (Some 100) None None
            (Some 50) None (Some elementColor) None None None None None None)
  else if String.eqb type "triangle" then
    Some (Fabric.mkProps Fabric.triangle (Some 100) (Some 100) (Some 100) (Some 100)
            None None (Some elementColor) None None None None None None)
  else if String.eqb type "line" then
    Some (Fabric.mkProps Fabric.line None None None None
            None (Some (50, 100, 200, 100)) None (Some elementColor) (Some 2)
            None None None None)
  else None.

Definition addShape (type : string) : M unit :=
  guard_canvas (
    color <- gets elementColor ;;
    match shape_options type color with
    | Some options =>
        shape <- new options ;;
        canvas_add shape ;;
        canvas_do (fun c => Fabric.setActiveObject c (Fabric.ref shape)) ;;
        canvas_do Fabric.renderAll ;;
        on_canvas saveState
    | None => ret tt
    end).

Definition text_options (family : string) (color : string) (size : Z) : Fabric.Props :=
  Fabric.mkProps Fabric.i_text (Some 100) (Some 100) None None None None
    (Some color) None None (Some "Click to edit text") (Some family) (Some size) None.

Definition addText : M unit :=
  guard_canvas (
    family <- gets fontFamily ;;
    color <- gets fontColor ;;
    size <- gets fontSize ;;
    text <- new (text_options family color size) ;;
    canvas_add text ;;
    canvas_do (fun c => Fabric.setActiveObject c (Fabric.ref text)) ;;
    canvas_do Fabric.renderAll).

(** The [img.onload] callback of [handleImageUpload] for one decoded
    file; [rx] and [ry] are the two draws [Math.random() * 100]. *)
Definition image_onload (rx ry : Z) : M unit :=
  guard_canvas (
    fabricImage <- new (Fabric.mkProps Fabric.image (Some (rx + 50)) (Some (ry + 50))
                          None None None None None None None None None None (Some 200)) ;;
    canvas_add fabricImage ;;
    canvas_do Fabric.renderAll ;;
    on_canvas saveState ;;
    toast "Image added!").

Definition set_text_style (family : string) (size : Z) (color : string)
    (p : Fabric.Props) : Fabric.Props :=
  Fabric.mkProps (Fabric.type p) (Fabric.left p) (Fabric.top p) (Fabric.width p)
    (Fabric.height p) (Fabric.radius p) (Fabric.points p)
    (Some color) (Fabric.stroke p) (Fabric.strokeWidth p) (Fabric.text p)
    (Some family) (Some size) (Fabric.scaledWidth p).

Definition set_stroke (color : string) (p : Fabric.Props) : Fabric.Props :=
  Fabric.mkProps (Fabric.type p) (Fabric.left p) (Fabric.top p) (Fabric.width p)
    (Fabric.height p) (Fabric.radius p) (Fabric.points p)
    (Fabric.fill p) (Some color) (Fabric.strokeWidth p) (Fabric.text p)
    (Fabric.fontFamily p) (Fabric.fontSize p) (Fabric.scaledWidth p).

Definition set_fill (color : string) (p : Fabric.Props) : Fabric.Props :=
  Fabric.mkProps (Fabric.type p) (Fabric.left p) (Fabric.top p) (Fabric.width p)
    (Fabric.height p) (Fabric.radius p) (Fabric.points p)
    (Some color) (Fabric.stroke p) (Fabric.strokeWidth p) (Fabric.text p)
    (Fabric.fontFamily p) (Fabric.fontSize p) (Fabric.scaledWidth p).

Definition updateSelectedObject : M unit :=
  guard_canvas (
    activeObject <- canvas_getActiveObject ;;
    match activeObject with
    | Some o =>
        family <- gets fontFamily ;;
        size <- gets fontSize ;;
        fcolor <- gets fontColor ;;
        ecolor <- gets elementColor ;;
        (if Fabric.ObjectType_eqb (Fabric.type (Fabric.props o)) Fabric.i_text then
           canvas_do (fun c => Fabric.set c (Fabric.ref o) (set_text_style family size fcolor))
         else if Fabric.ObjectType_eqb (Fabric.type (Fabric.props o)) Fabric.line then
           canvas_do (fun c => Fabric.set c (Fabric.ref o) (set_stroke ecolor))
         else
           canvas_do (fun c => Fabric.set c (Fabric.ref o) (set_fill ecolor))) ;;
        canvas_do Fabric.renderAll
    | None => ret tt
    end).

(** A control's [onChange]: the state setter, after which the effect on
    [fontFamily, fontSize, fontColor, elementColor] runs
    [updateSelectedObject].  React runs the effect only when the value
    is a new one.  (The effect's run at mount finds [canvas] still [null]
    and returns.) *)
Definition setFontFamily (v : string) : M unit :=
  old <- gets fontFamily ;;
  if String.eqb old v then ret tt
  else (modify (with_fontFamily v) ;; updateSelectedObject).
Definition setFontSize (v : Z) : M unit :=
  old <- gets fontSize ;;
  if Z.eqb old v then ret tt
  else (modify (with_fontSize v) ;; updateSelectedObject).
Definition setFontColor (v : string) : M unit :=
  old <- gets fontColor ;;
  if String.eqb old v then ret tt
  else (modify (with_fontColor v) ;; updateSelectedObject).
Definition setElementColor (v : string) : M unit :=
  old <- gets elementColor ;;
  if String.eqb old v then ret tt
  else (modify (with_elementColor v) ;; updateSelectedObject).

Inductive Direction : Type := up | down.

(** The four z-order calls of the layer controls: [canvas.bringForward(obj)],
    [canvas.sendBackwards(obj)], [canvas.bringToFront(obj)] and
    [canvas.sendToBack(obj)].  The canvas class that line 2 imports, the
    one of fabric 6 and later, has no method of any of these names (its
    z-order methods are called otherwise, and the component calls none of
    them): the property read gives [undefined], and calling it throws a
    [TypeError] before anything is done to the canvas. *)
Definition canvas_bringForward (obj : Fabric.Object) : M unit := throw TypeError.
Definition canvas_sendBackwards (obj : Fabric.Object) : M unit := throw TypeError.
Definition canvas_bringToFront (obj : Fabric.Object) : M unit := throw TypeError.
Definition canvas_sendToBack (obj : Fabric.Object) : M unit := throw TypeError.

Definition moveLayer (direction : Direction) : M unit :=
  guard_canvas (
    activeObject <- canvas_getActiveObject ;;
    match activeObject with
    | None => toast "Please select an element first!"
    | Some o =>
        match direction with
        | up =>
            canvas_bringForward o ;;
            toast "Moved layer forward"
        | down =>
            canvas_sendBackwards o ;;
            toast "Moved layer backward"
        end ;;
        canvas_do Fabric.renderAll ;;
        on_canvas saveState
    end).

Definition bringToFront : M unit :=
  guard_canvas (
    activeObject <- canvas_getActiveObject ;;
    match activeObject with
    | None => toast "Please select an element first!"
    | Some o =>
        canvas_bringToFront o ;;
        canvas_do Fabric.renderAll ;;
        on_canvas saveState ;;
        toast "Brought to front"
    end).

Definition sendToBack : M unit :=
  guard_canvas (
    activeObject <- canvas_getActiveObject ;;
    match activeObject with
    | None => toast "Please select an element first!"
    | Some o =>
        canvas_sendToBack o ;;
        canvas_do Fabric.renderAll ;;
        on_canvas saveState ;;
        toast "Sent to back"
    end).

(** The user clicks an object, or empty canvas: the selection changes,
    nothing else does. *)
Definition select (r : option nat) : M unit :=
  canvas_do (fun c => Fabric.mkCanvas (Fabric._objects c) r
                        (Fabric.backgroundColor c) (Fabric.renders c)).

(** The user finishes transforming object [r] with the mouse or edits a
    text in place: its properties change by [f], then ['object:modified']
    fires. *)
Definition transform (r : nat) (f : Fabric.Props -> Fabric.Props) : M unit :=
  canvas_do (fun c => Fabric.set c r f) ;;
  on_object_modified.

End Component.

(* ================================================================== *)
(** ** Image upload and export *)

Section Upload.

Context {codec : JSONCodec}.

(** One file of an upload as its load turns out: whether the reader's
    [event.target.result] is there, whether the browser then decodes that
    result as an image (so that [img.onload] fires), and the two draws
    [Math.random() * 100] of its [img.onload]. *)
Record Loaded : Type := mkLoaded {
  has_result : bool;
  decodes : bool;
  draw_x : Z;
  draw_y : Z
}.

(** The [reader.onload] callback: [if (!event.target?.result) return;],
    then [img.src] is set.  [img.onload] runs only when the result decodes
    as an image; no [img.onerror] is set, so a result that does not decode
    leaves everything as it is. *)
Definition reader_onload (f : Loaded) : M unit :=
  if negb (has_result f) then ret tt
  else if decodes f then image_onload (draw_x f) (draw_y f)
  else ret tt.

(** [handleImageUpload]: [files] is [e.target.files] ([None] for [null]),
    listed in the order in which the loads complete. *)
Definition handleImageUpload (files : option (list Loaded)) : M unit :=
  guard_canvas (
    match files with
    | None => ret tt
    | Some fs => for_each fs reader_onload
    end).

End Upload.

Section Exporting.

(** The canvas's own encoders and the browser's [URL.createObjectURL]
    (of a blob with the given text) are taken as they come. *)
Variable toSVG : FabricCanvas -> string.
Variable createObjectURL : string -> string.

Inductive Format : Type := png | jpeg | html.

Definition format_text (format : Format) : string :=
  match format with
  | png => "png"
  | jpeg => "jpeg"
  | html => "html"
  end.

(** [format.toUpperCase()]. *)
Definition format_upper (format : Format) : string :=
  match format with
  | png => "PNG"
  | jpeg => "JPEG"
  | html => "HTML"
  end.

Variable toDataURL : FabricCanvas -> Format -> string.

(** The link that [saveCanvas] builds and clicks. *)
Record Link : Type := mkLink {
  download : string;
  href : string
}.

Definition nl : string := String (ascii_of_nat 10) EmptyString.
Definition dq : string := String (ascii_of_nat 34) EmptyString.

(** The template literal [htmlContent] around [svgData]. *)
Definition htmlContent (svgData : string) : string :=
  (nl ++ "        <!DOCTYPE html>"
   ++ nl ++ "        <html>"
   ++ nl ++ "        <head><title>Canvas Export</title></head>"
   ++ nl ++ "        <body style=" ++ dq
   ++ "display: flex; justify-content: center; align-items: center; min-height: 100vh; margin: 0;"
   ++ dq ++ ">"
   ++ nl ++ "          " ++ svgData
   ++ nl ++ "        </body>"
   ++ nl ++ "        </html>"
   ++ nl ++ "      ")%string.

(** [saveCanvas(format)]; the value is the link that was clicked, [None]
    when the closure returned at its guard. *)
Definition saveCanvas (format : Format) : M (option Link) :=
  fun st =>
    match canvas st with
    | None => (Returned None, st)
    | Some c =>
        let link :=
          match format with
          | html => mkLink "canvas-export.html" (createObjectURL (htmlContent (toSVG c)))
          | _ => mkLink ("canvas-image." ++ format_text format) (toDataURL c format)
          end in
        (toast ("Canvas saved as " ++ format_upper format ++ "!") ;; ret (Some link)) st
    end.

End Exporting.

(* ================================================================== *)
(** ** The earlier revision of the component

    [src/components/Canvas.tsx] is an earlier revision of the same
    component: no element colour, no delete, no layer controls, no
    ['object:added'] handler.  Its [saveState], [undo], [redo] and [addText]
    read as above (with no toast from that handler); its [addShape],
    [updateSelectedObject] and image upload differ. *)

Module CanvasTsx.

Definition shape_options (type : string) : option Fabric.Props :=
  if String.eqb type "rectangle" then
    Some (Fabric.mkProps Fabric.rect (Some 100) (Some 100) (Some 100) (Some 100)
            None None (Some "#e2e8f0") None None None None None None)
  else if String.eqb type "circle" then
    Some (Fabric.mkProps Fabric.circle (Some 100) (Some 100) None None
            (Some 50) None (Some "#e2e8f0") None None None None None None)
  else if String.eqb type "triangle" then
    Some (Fabric.mkProps Fabric.triangle (Some 100) (Some 100) (Some 100) (Some 100)
            None None (Some "#e2e8f0") None None None None None None)
  else if String.eqb type "line" then
    Some (Fabric.mkProps Fabric.line None None None None
            None (Some (50, 100, 200, 100)) None (Some "#000000") (Some 2)
            None None None None)
  else None.

Definition addShape (type : string) : M unit :=
  guard_canvas (
    match shape_options type with
    | Some options =>
        shape <- new options ;;
        canvas_do (fun c => Fabric.add c shape) ;;
        canvas_do (fun c => Fabric.setActiveObject c (Fabric.ref shape)) ;;
        canvas_do Fabric.renderAll
    | None => ret tt
    end).

Definition updateSelectedObject : M unit :=
  guard_canvas (
    activeObject <- canvas_getActiveObject ;;
    match activeObject with
    | Some o =>
        if Fabric.ObjectType_eqb (Fabric.type (Fabric.props o)) Fabric.i_text then
          family <- gets fontFamily ;;
          size <- gets fontSize ;;
          fcolor <- gets fontColor ;;
          canvas_do (fun c => Fabric.set c (Fabric.ref o) (set_text_style family size fcolor)) ;;
          canvas_do Fabric.renderAll
        else ret tt
    | None => ret tt
    end).

(** The [img.onload] callback of the earlier revision: a fixed place, and
    no record. *)
Definition image_onload : M unit :=
  guard_canvas (
    fabricImage <- new (Fabric.mkProps Fabric.image (Some 100) (Some 100)
                          None None None None None None None None None None (Some 200)) ;;
    canvas_do (fun c => Fabric.add c fabricImage) ;;
    canvas_do Fabric.renderAll ;;
    toast "Image added!").

(** The buttons of the earlier revision that put something on the
    canvas. *)
Inductive Addition : Type :=
| Shape (type : string)
| Text
| Image.

Definition put (a : Addition) : M unit :=
  match a with
  | Shape type => addShape type
  | Text =>
      guard_canvas (
        family <- gets fontFamily ;;
        color <- gets fontColor ;;
        size <- gets fontSize ;;
        text <- new (text_options family color size) ;;
        canvas_do (fun c => Fabric.add c text) ;;
        canvas_do (fun c => Fabric.setActiveObject c (Fabric.ref text)) ;;
        canvas_do Fabric.renderAll)
  | Image => image_onload
  end.

Definition put_all (l : list Addition) (st : State) : State :=
  fold_left (fun st a => exec (put a) st) l st.

Section Restore.

Context {codec : JSONCodec}.

(** [canvas.loadFromJSON(json, reviver)] where no ['object:added']
    handler is registered: the reviver runs once for each object of the
    snapshot, then the snapshot's objects replace the canvas's. *)
Definition canvas_loadFromJSON (json : Fabric.CanvasJSON) (reviver : M unit) : M unit :=
  on_canvas (fun _ =>
    for_each (Fabric.objects json) (fun _ => reviver) ;;
    modify (fun st =>
      with_heap (heap st + List.length (Fabric.objects json))%nat
        (with_canvas (option_map (fun c => Fabric.loadFromJSON (heap st) c json)
                        (canvas st)) st))).

Definition undo : M unit :=
  fun st =>
    match canvas st with
    | None => (Returned tt, st)
    | Some _ =>
        if (List.length (past (historyRef st)) <=? 1)%nat then (Returned tt, st)
        else
          let (current, past1) := pop (past (historyRef st)) in
          let st1 := with_history (mkHistory past1 (future (historyRef st))) st in
          match current with
          | Some cur =>
              if truthy cur then
                let st2 := with_history (mkHistory past1 (push (future (historyRef st1)) cur)) st1 in
                let previousState := peek (past (historyRef st2)) in
                (json <- parse previousState ;;
                 canvas_loadFromJSON json
                   (canvas_do Fabric.renderAll ;; toast "Undo successful!")) st2
              else (Returned tt, st1)
          | None => (Returned tt, st1)
          end
    end.

End Restore.

End CanvasTsx.

(* ================================================================== *)
(** ** The vocabulary of the properties *)

Section Vocabulary.

Context {codec : JSONCodec}.

(** The snapshot [saveState] takes of a canvas. *)
Definition capture (c : FabricCanvas) : string :=
  JSON_stringify (Fabric.toJSON c).

(** The surface as a snapshot sees it; two surfaces with the same view
    are structurally equal. *)
Definition surface (st : State) : option Fabric.CanvasJSON :=
  option_map Fabric.toJSON (canvas st).

(** The toast the ['object:added'] handler shows for an object with
    properties [p]. *)
Definition layer_added (p : Fabric.Props) : string :=
  ("Layer added: " ++ Fabric.type_name (Fabric.type p))%string.

(** The state after snapshot [j] was restored onto canvas [c] of [st],
    with the history [h] and the reviver's toast [msg]: the reviver has
    rendered and toasted once for each object of the snapshot, then the
    objects were added. *)
Definition restored (j : Fabric.CanvasJSON) (msg : string) (h : History)
    (c : FabricCanvas) (st : State) : State :=
  mkState (Some (Fabric.loadFromJSON (heap st)
                   (Nat.iter (List.length (Fabric.objects j)) Fabric.renderAll c) j))
          (fontSize st) (fontFamily st) (fontColor st) (elementColor st) h
          ((toasts st ++ repeat msg (List.length (Fabric.objects j)))
             ++ map layer_added (Fabric.objects j))
          (heap st + List.length (Fabric.objects j))%nat.

(** A snapshot that some [saveState] call took. *)
Definition captured (s : string) : Prop :=
  exists j, s = JSON_stringify j.

(** The surface is as the top of [past] describes it. *)
Definition synced (st : State) : Prop :=
  option_map capture (canvas st) = peek (past (historyRef st)).

(** [N] record calls in a row: before the i-th call the surface has
    become [c_i], by whatever edits. *)
Fixpoint records (cs : list FabricCanvas) : M unit :=
  match cs with
  | [] => ret tt
  | c :: r => modify (with_canvas (Some c)) ;; saveState c ;; records r
  end.

(** The entry points whose code calls [saveState]. *)
Inductive Commit : Type :=
| ShapeCreated (type : string)
| Deleted
| ImageCompleted (rx ry : Z)
| LayerMoved (direction : Direction)
| BroughtToFront
| SentToBack
| ObjectModified.

Definition entry (k : Commit) : M unit :=
  match k with
  | ShapeCreated type => addShape type
  | Deleted => deleteSelected
  | ImageCompleted rx ry => image_onload rx ry
  | LayerMoved direction => moveLayer direction
  | BroughtToFront => bringToFront
  | SentToBack => sendToBack
  | ObjectModified => on_object_modified
  end.

Definition is_some {A : Type} (o : option A) : bool :=
  match o with Some _ => true | None => false end.

(** Whether the entry point reaches its [saveState] call in [st]: the
    canvas is there, the shape kind is one of the [switch]'s cases, the
    selection that [deleteSelected] needs is there.  The layer controls
    never reach theirs: without a selection they return at their guard,
    and with one their z-order call throws. *)
Definition commits (k : Commit) (st : State) : bool :=
  match canvas st with
  | None => false
  | Some c =>
      match k with
      | ShapeCreated type => is_some (shape_options type (elementColor st))
      | Deleted => is_some (Fabric.getActiveObject c)
      | LayerMoved _ | BroughtToFront | SentToBack => false
      | ImageCompleted _ _ | ObjectModified => true
      end
  end.

(** An operation that, called without a selection, reports a notice to
    the user and leaves the surface and the history alone. *)
Definition reports_missing_selection (op : M unit) : Prop :=
  forall (st : State) (c : FabricCanvas),
    canvas st = Some c ->
    Fabric.getActiveObject c = None ->
    fst (op st) = Returned tt /\
    (exists notice, toasts (exec op st) = toasts st ++ [notice]) /\
    canvas (exec op st) = canvas st /\
    historyRef (exec op st) = historyRef st.

(** What one control change writes into the style states. *)
Inductive StyleChange : Type :=
| FontFamily (v : string)
| FontSize (v : Z)
| FontColor (v : string)
| ElementColor (v : string).

Definition changed (chg : StyleChange) (st : State) : State :=
  match chg with
  | FontFamily v => with_fontFamily v st
  | FontSize v => with_fontSize v st
  | FontColor v => with_fontColor v st
  | ElementColor v => with_elementColor v st
  end.

(** Whether the change writes a value other than the current one. *)
Definition differs (chg : StyleChange) (st : State) : bool :=
  match chg with
  | FontFamily v => negb (String.eqb (fontFamily st) v)
  | FontSize v => negb (Z.eqb (fontSize st) v)
  | FontColor v => negb (String.eqb (fontColor st) v)
  | ElementColor v => negb (String.eqb (elementColor st) v)
  end.

Definition setStyle (chg : StyleChange) : M unit :=
  match chg with
  | FontFamily v => setFontFamily v
  | FontSize v => setFontSize v
  | FontColor v => setFontColor v
  | ElementColor v => setElementColor v
  end.

(** The properties a style push leaves alone whatever the object. *)
Definition unstyled (p : Fabric.Props) :=
  (Fabric.type p, Fabric.left p, Fabric.top p, Fabric.width p, Fabric.height p,
   Fabric.radius p, Fabric.points p, Fabric.strokeWidth p, Fabric.text p,
   Fabric.scaledWidth p).

(** An operation is transactional when a call that throws leaves the
    surface and both history stacks exactly as they were before the call. *)
Definition transactional (op : M unit) : Prop :=
  forall (st : State) (e : Exn),
    fst (op st) = Thrown e ->
    canvas (exec op st) = canvas st /\
    past (historyRef (exec op st)) = past (historyRef st) /\
    future (historyRef (exec op st)) = future (historyRef st).

(** The events of a session after the mount: the entry points that may
    commit, the text button, a style control, a click that selects or
    deselects, a finished transformation of an object, and the undo and
    redo buttons. *)
Inductive Event : Type :=
| Committing (k : Commit)
| TextAdded
| StyleSet (chg : StyleChange)
| Clicked (r : option nat)
| Transformed (r : nat) (f : Fabric.Props -> Fabric.Props)
| UndoPressed
| RedoPressed.

Definition handle (ev : Event) : M unit :=
  match ev with
  | Committing k => entry k
  | TextAdded => addText
  | StyleSet chg => setStyle chg
  | Clicked r => select r
  | Transformed r f => transform r f
  | UndoPressed => undo
  | RedoPressed => redo
  end.

(** The events of the layer controls. *)
Definition layer_control (ev : Event) : bool :=
  match ev with
  | Committing (LayerMoved _) | Committing BroughtToFront | Committing SentToBack => true
  | _ => false
  end.

(** Each event runs its handler on the state the one before left,
    whether that one returned or threw. *)
Definition session (evs : list Event) (st : State) : State :=
  fold_left (fun st ev => exec (handle ev) st) evs st.

(** What every session keeps true of the history: the canvas is there,
    [past] is not empty, and every entry of either stack is a snapshot
    some [saveState] call took. *)
Definition history_ok (st : State) : Prop :=
  canvas st <> None /\
  past (historyRef st) <> [] /\
  Forall captured (past (historyRef st) ++ future (historyRef st)).

(** What every session keeps true of the heap: the objects on the canvas
    have references all different and all below the next free one. *)
Definition refs_ok (st : State) : Prop :=
  forall c, canvas st = Some c ->
    NoDup (map Fabric.ref (Fabric._objects c)) /\
    Forall (fun o => (Fabric.ref o < heap st)%nat) (Fabric._objects c).

End Vocabulary.

(* ================================================================== *)
(** ** More vocabulary: the timeline *)

(** The one line of snapshots a history holds: [past], oldest first,
    then the undone entries in the order a run of redos brings them back. *)
Definition timeline (h : History) : list string :=
  past h ++ rev (future h).

(** A file of an upload whose [img.onload] runs: the reader has a
    result and the result decodes as an image. *)
Definition completes (f : Loaded) : bool := has_result f && decodes f.

(** The properties of the image an upload puts on the canvas. *)
Definition image_of (f : Loaded) : Fabric.Props :=
  Fabric.mkProps Fabric.image (Some (draw_x f + 50)) (Some (draw_y f + 50))
    None None None None None None None None None None (Some 200).

(** The object painted last. *)
Definition topmost (st : State) : option Fabric.Props :=
  match canvas st with
  | Some c => option_map Fabric.props (peek (Fabric._objects c))
  | None => None
  end.

(** Two states hold the same document when they differ at most in the
    toasts shown: same canvas, same style states, same history, same heap. *)
Definition same_document (st1 st2 : State) : Prop :=
  st1 = with_toasts (toasts st1) st2.

(** Every entry of either stack is truthy, as any text of
    [JSON.stringify] is. *)
Definition all_truthy (h : History) : Prop :=
  Forall (fun s => truthy s = true) (past h ++ future h).

(* ================================================================== *)
(** ** A reference codec

    A concrete text format for canvas snapshots with a printer and a
    parser, used to run the component on concrete inputs.  Fields are
    written one after the other, each ended by [;]; inside a field [;] and
    the backslash are escaped by a backslash. *)

Module RefCodec.

Definition Parser (A : Type) : Type := string -> option (A * string).

Definition sep : ascii := ";"%char.
Definition esc : ascii := "\"%char.

Definition special (c : ascii) : bool := Ascii.eqb c sep || Ascii.eqb c esc.

Fixpoint put_string (s : string) : string :=
  match s with
  | EmptyString => String sep EmptyString
  | String c r =>
      if special c then String esc (String c (put_string r))
      else String c (put_string r)
  end.

Fixpoint get_string (s : string) : option (string * string) :=
  match s with
  | EmptyString => None
  | String c r =>
      if Ascii.eqb c sep then Some (EmptyString, r)
      else if Ascii.eqb c esc then
        match r with
        | String d r' =>
            match get_string r' with
            | Some (x, rest) => Some (String d x, rest)
            | None => None
            end
        | EmptyString => None
        end
      else
        match get_string r with
        | Some (x, rest) => Some (String c x, rest)
        | None => None
        end
  end.

Definition pbind {A B : Type} (p : Parser A) (k : A -> Parser B) : Parser B :=
  fun s =>
    match p s with
    | Some (a, rest) => k a rest
    | None => None
    end.

Definition pret {A : Type} (a : A) : Parser A := fun s => Some (a, s).

Definition put_Z (z : Z) : string :=
  put_string (NilEmpty.string_of_int (Z.to_int z)).

Definition get_Z : Parser Z :=
  pbind get_string (fun t s =>
    match NilEmpty.int_of_string t with
    | Some d => Some (Z.of_int d, s)
    | None => None
    end).

Definition put_option {A : Type} (put : A -> string) (o : option A) : string :=
  match o with
  | None => String "-"%char EmptyString
  | Some a => String "+"%char (put a)
  end.

Definition get_option {A : Type} (get : Parser A) : Parser (option A) :=
  fun s =>
    match s with
    | String c r =>
        if Ascii.eqb c "-"%char then Some (None, r)
        else if Ascii.eqb c "+"%char then
          match get r with
          | Some (a, rest) => Some (Some a, rest)
          | None => None
          end
        else None
    | EmptyString => None
    end.

Definition put_type (t : Fabric.ObjectType) : string :=
  put_string (Fabric.type_name t).

Definition type_of_name (n : string) : option Fabric.ObjectType :=
  if String.eqb n "rect" then Some Fabric.rect
  else if String.eqb n "circle" then Some Fabric.circle
  else if String.eqb n "triangle" then Some Fabric.triangle
  else if String.eqb n "line" then Some Fabric.line
  else if String.eqb n "i-text" then Some Fabric.i_text
  else if String.eqb n "image" then Some Fabric.image
  else None.

Definition get_type : Parser Fabric.ObjectType :=
  pbind get_string (fun n s =>
    match type_of_name n with
    | Some t => Some (t, s)
    | None => None
    end).

Definition put_points (p : Z * Z * Z * Z) : string :=
  let '(x1, y1, x2, y2) := p in
  (put_Z x1 ++ put_Z y1 ++ put_Z x2 ++ put_Z y2)%string.

Definition get_points : Parser (Z * Z * Z * Z) :=
  pbind get_Z (fun x1 => pbind get_Z (fun y1 =>
  pbind get_Z (fun x2 => pbind get_Z (fun y2 => pret (x1, y1, x2, y2))))).

Definition put_props (p : Fabric.Props) : string :=
  (put_type (Fabric.type p)
   ++ put_option put_Z (Fabric.left p)
   ++ put_option put_Z (Fabric.top p)
   ++ put_option put_Z (Fabric.width p)
   ++ put_option put_Z (Fabric.height p)
   ++ put_option put_Z (Fabric.radius p)
   ++ put_option put_points (Fabric.points p)
   ++ put_option put_string (Fabric.fill p)
   ++ put_option put_string (Fabric.stroke p)
   ++ put_option put_Z (Fabric.strokeWidth p)
   ++ put_option put_string (Fabric.text p)
   ++ put_option put_string (Fabric.fontFamily p)
   ++ put_option put_Z (Fabric.fontSize p)
   ++ put_option put_Z (Fabric.scaledWidth p))%string.

Definition get_props : Parser Fabric.Props :=
  pbind get_type (fun ty =>
  pbind (get_option get_Z) (fun l =>
  pbind (get_option get_Z) (fun t =>
  pbind (get_option get_Z) (fun w =>
  pbind (get_option get_Z) (fun h =>
  pbind (get_option get_Z) (fun r =>
  pbind (get_option get_points) (fun pts =>
  pbind (get_option get_string) (fun fi =>
  pbind (get_option get_string) (fun sk =>
  pbind (get_option get_Z) (fun sw =>
  pbind (get_option get_string) (fun tx =>
  pbind (get_option get_string) (fun ff =>
  pbind (get_option get_Z) (fun fs =>
  pbind (get_option get_Z) (fun sc =>
  pret (Fabric.mkProps ty l t w h r pts fi sk sw tx ff fs sc))))))))))))))).

Fixpoint put_all {A : Type} (put : A -> string) (l : list A) : string :=
  match l with
  | [] => EmptyString
  | a :: r => (put a ++ put_all put r)%string
  end.

Fixpoint get_n {A : Type} (get : Parser A) (n : nat) : Parser (list A) :=
  match n with
  | O => pret []
  | S k => pbind get (fun a => pbind (get_n get k) (fun r => pret (a :: r)))
  end.

Definition put_list {A : Type} (put : A -> string) (l : list A) : string :=
  (put_Z (Z.of_nat (List.length l)) ++ put_all put l)%string.

Definition get_list {A : Type} (get : Parser A) : Parser (list A) :=
  pbind get_Z (fun n => get_n get (Z.to_nat n)).

Definition stringify (j : Fabric.CanvasJSON) : string :=
  (put_string (Fabric.background j) ++ put_list put_props (Fabric.objects j))%string.

Definition parse_canvas : Parser Fabric.CanvasJSON :=
  pbind get_string (fun bg =>
  pbind (get_list get_props) (fun os => pret (Fabric.mkJSON os bg))).

(** The whole text must be used up. *)
Definition parse (s : string) : option Fabric.CanvasJSON :=
  match parse_canvas s with
  | Some (j, EmptyString) => Some j
  | _ => None
  end.

(** A printer and a parser agree when the parser reads back what the
    printer wrote and leaves the rest of the text alone. *)
Definition agree {A : Type} (put : A -> string) (get : Parser A) : Prop :=
  forall a rest, get (put a ++ rest)%string = Some (a, rest).

End RefCodec.

#[local] Instance refCodec : JSONCodec := {|
  JSON_stringify := RefCodec.stringify;
  JSON_parse := RefCodec.parse
|}.

(* ================================================================== *)
(** ** Runs on concrete inputs, with the reference codec *)

Module Runs.

(** The component after its mount effect. *)
Definition mounted : State := exec (mount true) initialState.

(** Scenario A: a rectangle, then a circle. *)
Definition two_shapes : State :=
  exec (addShape "circle") (exec (addShape "rectangle") mounted).

(** One [undo] later: two entries in [past], one in [future]. *)
Definition undone : State := exec undo two_shapes.

(** Two [undo]s later: [past] is down to the initial snapshot. *)
Definition floored : State := exec undo undone.

(** The rectangle (reference 0) selected by a click. *)
Definition rect_selected : State := exec (select (Some 0%nat)) two_shapes.

(** A freshly added text, which [addText] leaves selected. *)
Definition with_text : State := exec addText mounted.

(** A history whose bottom entry is not a snapshot any [saveState] call
    took: [JSON.parse] throws on it. *)
Definition broken_past : State :=
  with_history (mkHistory ["{"; capture (Fabric.create "#ffffff")] []) mounted.

Definition broken_future : State :=
  with_history (mkHistory [capture (Fabric.create "#ffffff")] ["{"]) mounted.

(** The surfaces of scenario A at its two record calls. *)
Definition surface_1 : FabricCanvas :=
  match canvas (exec (addShape "rectangle") mounted) with
  | Some c => c
  | None => Fabric.create "#ffffff"
  end.

Definition surface_2 : FabricCanvas :=
  match canvas two_shapes with
  | Some c => c
  | None => Fabric.create "#ffffff"
  end.

Definition surface_selected : FabricCanvas :=
  match canvas rect_selected with
  | Some c => c
  | None => Fabric.create "#ffffff"
  end.

End Runs.

(* ================================================================== *)
(** * Facts about the reference codec *)

Module RefCodecFacts.
Import RefCodec.

Lemma append_assoc (a b c : string) : ((a ++ b) ++ c = a ++ (b ++ c))%string.
Proof. induction a as [|x a IH]; simpl; [reflexivity | now rewrite IH]. Qed.

Lemma agree_string : agree put_string get_string.
Proof.
  intros s rest. induction s as [|c s IH]; simpl.
  - reflexivity.
  - unfold special. destruct (Ascii.eqb c sep) eqn:Es; simpl.
    + apply Ascii.eqb_eq in Es. subst c. simpl. now rewrite IH.
    + destruct (Ascii.eqb c esc) eqn:Ee; simpl.
      * apply Ascii.eqb_eq in Ee. subst c. simpl. now rewrite IH.
      * rewrite Es, Ee. now rewrite IH.
Qed.

Lemma agree_Z : agree put_Z get_Z.
Proof.
  intros z rest. unfold put_Z, get_Z, pbind.
  rewrite agree_string, NilEmpty.isi. now rewrite DecimalZ.of_to.
Qed.

Lemma agree_option {A : Type} (put : A -> string) (get : Parser A) :
  agree put get -> agree (put_option put) (get_option get).
Proof.
  intros H [a|] rest; simpl; [|reflexivity]. now rewrite H.
Qed.

Lemma agree_type : agree put_type get_type.
Proof.
  intros t rest. unfold put_type, get_type, pbind.
  rewrite agree_string. now destruct t.
Qed.

Lemma agree_points : agree put_points get_points.
Proof.
  intros [[[x1 y1] x2] y2] rest. unfold put_points, get_points, pbind, pret.
  rewrite !append_assoc. now rewrite !agree_Z.
Qed.

Lemma agree_props : agree put_props get_props.
Proof.
  intros p rest. destruct p. unfold put_props, get_props, pbind, pret. simpl.
  rewrite !append_assoc.
  rewrite agree_type.
  rewrite !(agree_option _ _ agree_Z).
  rewrite (agree_option _ _ agree_points).
  rewrite !(agree_option _ _ agree_string).
  rewrite !(agree_option _ _ agree_Z).
  rewrite !(agree_option _ _ agree_string).
  rewrite !(agree_option _ _ agree_Z).
  reflexivity.
Qed.

Lemma agree_all {A : Type} (put : A -> string) (get : Parser A) :
  agree put get ->
  forall l rest, get_n get (List.length l) (put_all put l ++ rest)%string = Some (l, rest).
Proof.
  intros H l. induction l as [|a l IH]; intros rest; simpl.
  - reflexivity.
  - unfold pbind, pret. rewrite append_assoc, H, IH. reflexivity.
Qed.

Lemma agree_list {A : Type} (put : A -> string) (get : Parser A) :
  agree put get -> agree (put_list put) (get_list get).
Proof.
  intros H l rest. unfold put_list, get_list, pbind.
  rewrite append_assoc, agree_Z, Nat2Z.id. now apply agree_all.
Qed.

Lemma append_empty (a : string) : (a ++ "")%string = a.
Proof. induction a as [|x a IH]; simpl; [reflexivity | now rewrite IH]. Qed.

Lemma parse_stringify (j : Fabric.CanvasJSON) : parse (stringify j) = Some j.
Proof.
  destruct j as [os bg]. unfold parse, parse_canvas, stringify, pbind, pret. simpl.
  rewrite agree_string.
  rewrite <- (append_empty (put_list put_props os)).
  now rewrite (agree_list _ _ agree_props).
Qed.

Lemma put_string_truthy (s : string) (rest : string) :
  truthy (put_string s ++ rest) = true.
Proof. destruct s as [|c s]; simpl; [reflexivity | now destruct (special c)]. Qed.

Lemma stringify_truthy (j : Fabric.CanvasJSON) : truthy (stringify j) = true.
Proof. apply put_string_truthy. Qed.

End RefCodecFacts.

(** The reference codec keeps the codec laws. *)
Lemma refCodec_laws : JSONLaws refCodec.
Proof.
  split; [exact RefCodecFacts.parse_stringify | exact RefCodecFacts.stringify_truthy].
Qed.

(* ================================================================== *)
(** * JavaScript arrays *)

Module JSFacts.

Lemma peek_push {A : Type} (a : list A) (x : A) : peek (push a x) = Some x.
Proof.
  unfold push. induction a as [|y a IH]; simpl; [reflexivity|].
  destruct (a ++ [x]) eqn:E; [now destruct a | exact IH].
Qed.

Lemma pop_push {A : Type} (a : list A) (x : A) : pop (push a x) = (Some x, a).
Proof. unfold pop. rewrite peek_push. unfold push. now rewrite removelast_last. Qed.

Lemma length_push {A : Type} (a : list A) (x : A) :
  List.length (push a x) = S (List.length a).
Proof. unfold push. rewrite length_app. simpl. lia. Qed.

Lemma peek_last {A : Type} (a : list A) (d : A) :
  a <> [] -> peek a = Some (last a d).
Proof.
  induction a as [|y a IH]; intros H; [congruence|].
  destruct a as [|z a]; [reflexivity|].
  change (peek (z :: a) = Some (last (z :: a) d)). apply IH. discriminate.
Qed.

Lemma last_cons {A : Type} (l : list A) (a d : A) :
  last (a :: l) d = last l a.
Proof.
  revert a d. induction l as [|b l IH]; intros a d; [reflexivity|].
  change (last (b :: l) d = last (b :: l) a). now rewrite !IH.
Qed.

Lemma last_map {A B : Type} (f : A -> B) (l : list A) (d : A) :
  last (map f l) (f d) = f (last l d).
Proof.
  induction l as [|a l IH]; [reflexivity|].
  destruct l as [|b l]; [reflexivity|]. exact IH.
Qed.

End JSFacts.

(* ================================================================== *)
(** * The earlier revision *)

Module CanvasTsxFacts.

(** In the earlier revision a new shape is not recorded: [addShape]
    returns with the history as it was. *)
Lemma addShape_keeps_history (type : string) (st : State) :
  fst (CanvasTsx.addShape type st) = Returned tt /\
  historyRef (exec (CanvasTsx.addShape type) st) = historyRef st.
Proof.
  destruct st as [[c|] fs ff fc ec h ts hp]; [|now split].
  unfold CanvasTsx.addShape, guard_canvas, exec. cbn [canvas].
  destruct (CanvasTsx.shape_options type); now split.
Qed.

(** In the earlier revision the style push reaches texts only: with any
    other object selected nothing changes. *)
Lemma updateSelectedObject_text_only (st : State) (c : FabricCanvas) (o : Fabric.Object) :
  canvas st = Some c ->
  Fabric.getActiveObject c = Some o ->
  Fabric.type (Fabric.props o) <> Fabric.i_text ->
  CanvasTsx.updateSelectedObject st = (Returned tt, st).
Proof.
  intros Hc Ha Ht.
  unfold CanvasTsx.updateSelectedObject, guard_canvas, bind, canvas_getActiveObject, gets.
  rewrite Hc, Ha. destruct (Fabric.type (Fabric.props o)); try reflexivity.
  now contradiction Ht.
Qed.

End CanvasTsxFacts.

(* ================================================================== *)
(** * The history engine *)

Section History.

Context {codec : JSONCodec} {laws : JSONLaws codec}.

Lemma props_enliven (n : nat) (ps : list Fabric.Props) :
  map Fabric.props (Fabric.enliven n ps) = ps.
Proof.
  revert n. induction ps as [|p ps IH]; intros n; simpl; [reflexivity|].
  now rewrite IH.
Qed.

Lemma toJSON_loadFromJSON (n : nat) (c : FabricCanvas) (j : Fabric.CanvasJSON) :
  Fabric.toJSON (Fabric.loadFromJSON n c j) = j.
Proof.
  destruct j as [os bg]. unfold Fabric.toJSON. simpl. now rewrite props_enliven.
Qed.

Lemma for_each_added (os : list Fabric.Object) (st : State) :
  for_each os on_object_added st =
  (Returned tt,
   with_toasts (toasts st ++ map (fun o => layer_added (Fabric.props o)) os) st).
Proof.
  revert st. induction os as [|o os IH]; intros st; simpl.
  - unfold ret. rewrite app_nil_r. now destruct st.
  - unfold bind at 1. unfold on_object_added at 1, toast, modify.
    rewrite IH. unfold with_toasts. simpl. now rewrite <- app_assoc.
Qed.

(** The reviver of [undo] and [redo], run once for each object of a
    snapshot: as many renders of the canvas as it is, and as many toasts. *)
Lemma for_each_revived {A : Type} (l : list A) (msg : string) (st : State) :
  for_each l (fun _ => canvas_do Fabric.renderAll ;; toast msg) st =
  (Returned tt,
   with_toasts (toasts st ++ repeat msg (List.length l))
     (with_canvas (option_map (Nat.iter (List.length l) Fabric.renderAll) (canvas st)) st)).
Proof.
  revert st. induction l as [|a l IH]; intros st.
  - cbn. unfold ret. rewrite app_nil_r. destruct st as [[c|] ? ? ? ? ? ? ?]; reflexivity.
  - cbn [for_each]. unfold bind at 1. unfold bind at 1.
    unfold canvas_do at 1, toast at 1, modify. rewrite IH.
    cbn [List.length repeat]. unfold with_toasts, with_canvas.
    destruct st as [[c|] ? ? ? ? ? ? ?]; cbn -[Nat.iter]; rewrite <- app_assoc;
      [rewrite Nat.iter_succ_r|]; reflexivity.
Qed.

Lemma loadFromJSON_run (j : Fabric.CanvasJSON) (msg : string) (c : FabricCanvas)
    (st : State) :
  canvas st = Some c ->
  canvas_loadFromJSON j (canvas_do Fabric.renderAll ;; toast msg) st =
  (Returned tt, restored j msg (historyRef st) c st).
Proof.
  intros Hc. unfold canvas_loadFromJSON, on_canvas at 1. rewrite Hc.
  unfold bind at 1. rewrite for_each_revived.
  unfold on_canvas. cbn [canvas with_toasts with_canvas]. rewrite Hc. cbn [option_map].
  rewrite for_each_added. cbn [Fabric.loadFromJSON Fabric._objects].
  rewrite <- (map_map Fabric.props layer_added), props_enliven.
  reflexivity.
Qed.

(** One effective [undo]: the top of [past] moves to [future] and the
    entry below it is restored. *)
Lemma undo_step (st : State) (c : FabricCanvas) (ps : list string)
    (p s : string) (j : Fabric.CanvasJSON) :
  canvas st = Some c ->
  past (historyRef st) = ps ++ [p; s] ->
  truthy s = true ->
  JSON_parse p = Some j ->
  undo st =
  (Returned tt,
   restored j "Undo successful!"
     (mkHistory (ps ++ [p]) (future (historyRef st) ++ [s])) c st).
Proof.
  intros Hc Hp Hs Hj. unfold undo. rewrite Hc, Hp.
  replace (List.length (ps ++ [p; s]) <=? 1)%nat with false
    by (symmetry; apply Nat.leb_gt; rewrite length_app; simpl; lia).
  change (ps ++ [p; s]) with (ps ++ [p] ++ [s]). rewrite app_assoc.
  change ((ps ++ [p]) ++ [s]) with (push (ps ++ [p]) s).
  rewrite JSFacts.pop_push, Hs. cbn [historyRef with_history past future].
  change (ps ++ [p]) with (push ps p). rewrite JSFacts.peek_push.
  unfold bind at 1. unfold parse. rewrite Hj. unfold ret.
  rewrite (loadFromJSON_run j _ c) by exact Hc. reflexivity.
Qed.

(** One effective [redo]: the top of [future] moves to [past] and is
    restored. *)
Lemma redo_step (st : State) (c : FabricCanvas) (fs : list string)
    (s : string) (j : Fabric.CanvasJSON) :
  canvas st = Some c ->
  future (historyRef st) = fs ++ [s] ->
  truthy s = true ->
  JSON_parse s = Some j ->
  redo st =
  (Returned tt,
   restored j "Redo successful!"
     (mkHistory (past (historyRef st) ++ [s]) fs) c st).
Proof.
  intros Hc Hf Hs Hj. unfold redo. rewrite Hc, Hf.
  replace (List.length (fs ++ [s]) =? 0)%nat with false
    by (symmetry; apply Nat.eqb_neq; rewrite length_app; simpl; lia).
  change (fs ++ [s]) with (push fs s).
  rewrite JSFacts.pop_push, Hs. cbn [historyRef with_history past future].
  unfold bind at 1. unfold parse. rewrite Hj. unfold ret.
  rewrite (loadFromJSON_run j _ c) by exact Hc. reflexivity.
Qed.

Lemma returned_exec (m : M unit) (st : State) :
  fst (m st) = Returned tt -> m st = (Returned tt, exec m st).
Proof. unfold exec. destruct (m st) as [r st']. simpl. now intros ->. Qed.

Lemma times_S (n : nat) (m : M unit) (st st' : State) :
  m st = (Returned tt, st') -> times (S n) m st = times n m st'.
Proof. intros H. simpl. unfold bind. now rewrite H. Qed.

Lemma capture_restored (j : Fabric.CanvasJSON) (msg : string) (h : History)
    (c : FabricCanvas) (st : State) :
  option_map capture (canvas (restored j msg h c st)) = Some (JSON_stringify j).
Proof.
  unfold restored, capture. cbn [canvas option_map].
  now rewrite toJSON_loadFromJSON.
Qed.

(** [undo] as many times as [suf] is long takes [suf] off [past], entry
    by entry, onto [future], and leaves the surface as the new top of
    [past] describes it. *)
Lemma undo_many (suf : list string) :
  forall (st : State) (base : list string),
    canvas st <> None ->
    past (historyRef st) = base ++ suf ->
    base <> [] ->
    Forall captured (base ++ suf) ->
    synced st ->
    exists st',
      times (List.length suf) undo st = (Returned tt, st') /\
      canvas st' <> None /\
      past (historyRef st') = base /\
      future (historyRef st') = future (historyRef st) ++ rev suf /\
      synced st'.
Proof.
  induction suf as [|s suf IH] using rev_ind; intros st base Hc Hp Hb Hall Hsync.
  - exists st. rewrite app_nil_r in Hp. simpl. rewrite app_nil_r. now repeat split.
  - destruct (canvas st) as [c|] eqn:Ec; [clear Hc | congruence].
    destruct (exists_last (l := base ++ suf)) as (ps & p & Eps).
    { destruct base; [congruence | discriminate]. }
    rewrite app_assoc, Eps in Hp, Hall. rewrite <- app_assoc in Hp. simpl in Hp.
    apply Forall_app in Hall as [Hall Hs]. inversion Hs as [|? ? [js Hjs] _]; subst s.
    pose proof Hall as Hall'. apply Forall_app in Hall' as [_ Hpc].
    inversion Hpc as [|? ? [jp Hjp] _]; subst p.
    pose proof (undo_step st c ps _ _ jp Ec Hp (JSON_stringify_truthy js)
                  (JSON_parse_stringify jp)) as Hstep.
    set (st1 := restored jp "Undo successful!"
                  (mkHistory (ps ++ [JSON_stringify jp])
                     (future (historyRef st) ++ [JSON_stringify js])) c st) in *.
    destruct (IH st1 base) as (st' & Hrun & Hc' & Hp' & Hf' & Hs').
    + discriminate.
    + subst st1. cbn [restored historyRef past]. now rewrite <- Eps.
    + exact Hb.
    + now rewrite Eps.
    + unfold synced. subst st1. rewrite capture_restored.
      cbn [restored historyRef past]. symmetry. apply JSFacts.peek_push.
    + exists st'. repeat split; try assumption.
      * rewrite length_app, Nat.add_comm. simpl List.length.
        change (1 + List.length suf)%nat with (S (List.length suf)).
        now rewrite (times_S _ _ _ _ Hstep).
      * rewrite Hf'. subst st1. cbn [restored historyRef future].
        rewrite rev_app_distr. simpl. now rewrite <- app_assoc.
Qed.

(** [redo] as many times as [suf] is long brings [suf] back from
    [future] onto [past], in its old order. *)
Lemma redo_many (suf : list string) :
  forall (st : State) (fs : list string),
    canvas st <> None ->
    future (historyRef st) = fs ++ rev suf ->
    Forall captured suf ->
    synced st ->
    exists st',
      times (List.length suf) redo st = (Returned tt, st') /\
      canvas st' <> None /\
      past (historyRef st') = past (historyRef st) ++ suf /\
      future (historyRef st') = fs /\
      synced st'.
Proof.
  induction suf as [|s suf IH]; intros st fs Hc Hf Hall Hsync.
  - exists st. simpl in *. rewrite app_nil_r in *. now repeat split.
  - destruct (canvas st) as [c|] eqn:Ec; [clear Hc | congruence].
    inversion Hall as [|? ? [js Hjs] Hall']; subst.
    simpl in Hf. rewrite app_assoc in Hf.
    pose proof (redo_step st c _ _ js Ec Hf (JSON_stringify_truthy js)
                  (JSON_parse_stringify js)) as Hstep.
    set (st1 := restored js "Redo successful!"
                  (mkHistory (past (historyRef st) ++ [JSON_stringify js])
                     (fs ++ rev suf)) c st) in *.
    destruct (IH st1 fs) as (st' & Hrun & Hc' & Hp' & Hf' & Hs').
    + discriminate.
    + reflexivity.
    + exact Hall'.
    + unfold synced. subst st1. rewrite capture_restored.
      cbn [restored historyRef past]. symmetry. apply JSFacts.peek_push.
    + exists st'. repeat split; try assumption.
      * cbn [List.length]. now rewrite (times_S _ _ _ _ Hstep).
      * rewrite Hp'. subst st1. cbn [restored historyRef past].
        now rewrite <- app_assoc.
Qed.

Lemma JSON_stringify_inj (j1 j2 : Fabric.CanvasJSON) :
  JSON_stringify j1 = JSON_stringify j2 -> j1 = j2.
Proof.
  intros H. apply (f_equal JSON_parse) in H.
  rewrite !JSON_parse_stringify in H. congruence.
Qed.

(** [N] undos then [N] redos on a history of [N + 1] recorded snapshots
    with an empty [future]. *)
Lemma undo_redo_roundtrip (st : State) (s0 : string) (snaps : list string) :
  canvas st <> None ->
  past (historyRef st) = s0 :: snaps ->
  future (historyRef st) = [] ->
  Forall captured (s0 :: snaps) ->
  synced st ->
  exists st',
    (times (List.length snaps) undo ;; times (List.length snaps) redo) st
      = (Returned tt, st') /\
    canvas st' <> None /\
    past (historyRef st') = s0 :: snaps /\
    future (historyRef st') = [] /\
    synced st'.
Proof.
  intros Hc Hp Hf Hall Hsync.
  destruct (undo_many snaps st [s0] Hc Hp ltac:(discriminate) Hall Hsync)
    as (st1 & Hrun1 & Hc1 & Hp1 & Hf1 & Hs1).
  rewrite Hf in Hf1. simpl in Hf1.
  destruct (redo_many snaps st1 [] Hc1 Hf1) as (st2 & Hrun2 & Hc2 & Hp2 & Hf2 & Hs2).
  - now inversion Hall.
  - exact Hs1.
  - exists st2. repeat split; try assumption.
    + unfold bind. now rewrite Hrun1.
    + now rewrite Hp2, Hp1.
Qed.

Lemma records_run (cs : list FabricCanvas) :
  forall (st : State) (c : FabricCanvas),
    canvas st = Some c ->
    future (historyRef st) = [] ->
    exists st',
      records cs st = (Returned tt, st') /\
      canvas st' = Some (last cs c) /\
      past (historyRef st') = past (historyRef st) ++ map capture cs /\
      future (historyRef st') = [].
Proof.
  induction cs as [|c1 cs IH]; intros st c Hc Hf.
  - exists st. simpl. rewrite app_nil_r. now repeat split.
  - destruct (IH (exec (modify (with_canvas (Some c1)) ;; saveState c1) st) c1)
      as (st' & Hrun & Hc' & Hp' & Hf'); [reflexivity | reflexivity |].
    exists st'. repeat split.
    + cbn [records]. unfold bind at 1 2. cbn [modify saveState].
      exact Hrun.
    + rewrite Hc'. f_equal. symmetry. apply JSFacts.last_cons.
    + rewrite Hp'. cbn. unfold push. now rewrite <- app_assoc.
    + exact Hf'.
Qed.

Lemma mount_run (st : State) :
  mount true st =
  (Returned tt,
   mkState (Some (Fabric.create "#ffffff")) (fontSize st) (fontFamily st)
     (fontColor st) (elementColor st)
     (mkHistory (push (past (historyRef st)) (capture (Fabric.create "#ffffff"))) [])
     (toasts st ++ ["Canvas ready!"]) (heap st)).
Proof. reflexivity. Qed.

(** C1. Undo and redo are inverses over the history stacks: after the
    mount and any [N] record calls that took the snapshots [S0 .. SN] of
    the surfaces [c0 .. cN], [N] undos followed by [N] redos return, the
    surface is structurally equal to [cN] (its snapshot is [SN]), [past]
    holds [S0 .. SN] in order again and [future] is empty. *)
Theorem undo_redo_inverse (cs : list FabricCanvas) :
  let c0 := Fabric.create "#ffffff" in
  let N := List.length cs in
  let st := exec (mount true ;; records cs) initialState in
  exists st',
    (times N undo ;; times N redo) st = (Returned tt, st') /\
    past (historyRef st) = map capture (c0 :: cs) /\
    past (historyRef st') = map capture (c0 :: cs) /\
    future (historyRef st') = [] /\
    surface st' = Some (Fabric.toJSON (last cs c0)) /\
    option_map capture (canvas st') = Some (last (map capture cs) (capture c0)).
Proof.
  intros c0 N st.
  destruct (records_run cs (exec (mount true) initialState) c0)
    as (st1 & Hrun & Hc & Hp & Hf); [reflexivity | reflexivity |].
  assert (Est : st = st1).
  { subst st. unfold exec, bind. rewrite mount_run.
    unfold exec in Hrun. rewrite mount_run in Hrun. cbn [snd] in Hrun.
    now rewrite Hrun. }
  assert (Hpast : past (historyRef st1) = map capture (c0 :: cs)).
  { rewrite Hp. reflexivity. }
  assert (Hsync : synced st1).
  { unfold synced. rewrite Hc, Hpast. cbn [option_map]. symmetry.
    rewrite (JSFacts.peek_last _ (capture c0)) by discriminate.
    f_equal. now rewrite JSFacts.last_map, JSFacts.last_cons. }
  destruct (undo_redo_roundtrip st1 (capture c0) (map capture cs))
    as (st' & Hrun' & Hc' & Hp' & Hf' & Hs'); try assumption.
  - congruence.
  - change (Forall captured (map capture (c0 :: cs))).
    apply Forall_forall. intros s Hs. apply in_map_iff in Hs as (c & <- & _).
    now exists (Fabric.toJSON c).
  - rewrite length_map in Hrun'. exists st'. rewrite Est.
    repeat split; try assumption.
    + unfold synced in Hs'. rewrite Hp' in Hs'. unfold surface.
      destruct (canvas st') as [c'|]; [|congruence]. cbn [option_map] in *.
      rewrite (JSFacts.peek_last _ (capture c0)) in Hs' by discriminate.
      rewrite JSFacts.last_cons in Hs'. rewrite JSFacts.last_map in Hs'.
      f_equal. apply JSON_stringify_inj. unfold capture in Hs'. congruence.
    + unfold synced in Hs'. rewrite Hs', Hp'.
      rewrite (JSFacts.peek_last _ (capture c0)) by discriminate.
      now rewrite JSFacts.last_cons.
Qed.

Lemma undo_floor (st : State) :
  (List.length (past (historyRef st)) <= 1)%nat -> undo st = (Returned tt, st).
Proof.
  intros H. unfold undo. destruct (canvas st); [|reflexivity].
  apply Nat.leb_le in H. now rewrite H.
Qed.

Lemma redo_floor (st : State) :
  future (historyRef st) = [] -> redo st = (Returned tt, st).
Proof.
  intros H. unfold redo. destruct (canvas st); [|reflexivity].
  now rewrite H.
Qed.

(** C10. A floored [undo] or [redo] is a total no-op: with at most one
    entry in [past], [undo] returns and leaves the whole state (surface,
    [past], [future] with any pending redo entries) as it was; with an
    empty [future], so does [redo]. *)
Theorem floored_undo_redo_noop (st : State) :
  ((List.length (past (historyRef st)) <= 1)%nat -> undo st = (Returned tt, st)) /\
  (future (historyRef st) = [] -> redo st = (Returned tt, st)).
Proof. split; [apply undo_floor | apply redo_floor]. Qed.

(** C5. After the mount effect on a fresh component, [past] holds
    exactly one entry, the snapshot of the empty scene, [future] is
    empty, and an immediate [undo] returns without changing the state. *)
Theorem init_single_snapshot :
  let st := exec (mount true) initialState in
  past (historyRef st) = [capture (Fabric.create "#ffffff")] /\
  List.length (past (historyRef st)) = 1%nat /\
  future (historyRef st) = [] /\
  surface st = Some (Fabric.mkJSON [] "#ffffff") /\
  undo st = (Returned tt, st).
Proof. repeat split. Qed.

Lemma entry_commits (k : Commit) (st : State) :
  commits k st = true ->
  exists c',
    fst (entry k st) = Returned tt /\
    canvas (exec (entry k) st) = Some c' /\
    past (historyRef (exec (entry k) st)) = past (historyRef st) ++ [capture c'] /\
    future (historyRef (exec (entry k) st)) = [].
Proof.
  unfold commits. destruct st as [[c|] fs ff fc ec h ts hp]; cbn [canvas]; [|discriminate].
  destruct k; cbn [entry]; intros H; try discriminate H.
  - unfold addShape, guard_canvas, exec, bind, gets. cbn [canvas elementColor] in *.
    destruct (shape_options type ec) as [options|]; [|discriminate].
    eexists. cbn. repeat split.
  - unfold deleteSelected, guard_canvas, exec, bind, canvas_getActiveObject, gets.
    cbn [canvas] in *.
    destruct (Fabric.getActiveObject c) as [o|]; [|discriminate].
    eexists. cbn. repeat split.
  - eexists. cbn. repeat split.
  - eexists. cbn. repeat split.
Qed.

(** A layer control with a selection throws at its z-order call, before
    anything is written; without a selection it shows its notice and
    returns; before the mount it returns at its guard. *)
Lemma layer_entry_run (k : Commit) (st : State) :
  layer_control (Committing k) = true ->
  match canvas st with
  | None => entry k st = (Returned tt, st)
  | Some c =>
      match Fabric.getActiveObject c with
      | Some _ => entry k st = (Thrown TypeError, st)
      | None =>
          entry k st =
          (Returned tt, with_toasts (toasts st ++ ["Please select an element first!"]) st)
      end
  end.
Proof.
  intros Hk. destruct st as [[c|] fs ff fc ec h ts hp]; cbn [canvas].
  - destruct k; try discriminate Hk; cbn [entry];
      unfold moveLayer, bringToFront, sendToBack, guard_canvas, bind,
        canvas_getActiveObject, gets; cbn [canvas];
      destruct (Fabric.getActiveObject c); try reflexivity;
      destruct direction; reflexivity.
  - destruct k; try discriminate Hk; reflexivity.
Qed.

(** An entry point that does not reach [saveState] leaves the history
    and the canvas as they were. *)
Lemma entry_skips (k : Commit) (st : State) :
  commits k st = false ->
  historyRef (exec (entry k) st) = historyRef st /\
  canvas (exec (entry k) st) = canvas st.
Proof.
  intros H.
  destruct (layer_control (Committing k)) eqn:Hk.
  - pose proof (layer_entry_run k st Hk) as Hrun. unfold exec.
    destruct (canvas st) as [c|] eqn:Hc; [destruct (Fabric.getActiveObject c)|];
      rewrite Hrun; cbn [snd]; auto.
  - revert H. unfold commits.
    destruct st as [[c|] fs ff fc ec h ts hp]; cbn [canvas].
    + destruct k; cbn [entry]; intros H; try discriminate.
      * unfold addShape, guard_canvas, exec, bind, gets. cbn [canvas elementColor] in *.
        destruct (shape_options type ec); [discriminate|]. now split.
      * unfold deleteSelected, guard_canvas, exec, bind, canvas_getActiveObject, gets.
        cbn [canvas] in *.
        destruct (Fabric.getActiveObject c); [discriminate|]. now split.
    + intros _. destruct k; now split.
Qed.

(** Only a layer control can fail to return from an entry point. *)
Lemma entry_returns (k : Commit) (st : State) :
  layer_control (Committing k) = false ->
  fst (entry k st) = Returned tt.
Proof.
  intros Hk. destruct (commits k st) eqn:H.
  - now destruct (entry_commits k st H) as (c' & Hr & _).
  - revert H. unfold commits.
    destruct st as [[c|] fs ff fc ec h ts hp]; cbn [canvas].
    + destruct k; cbn [entry]; intros H; try discriminate.
      * unfold addShape, guard_canvas, bind, gets. cbn [canvas elementColor] in *.
        destruct (shape_options type ec); [discriminate|]. reflexivity.
      * unfold deleteSelected, guard_canvas, bind, canvas_getActiveObject, gets.
        cbn [canvas] in *.
        destruct (Fabric.getActiveObject c); [discriminate|]. reflexivity.
    + intros _. destruct k; reflexivity.
Qed.

(** C2. Every call to [saveState] clears [future]: whatever the state,
    after the call [past] has the new snapshot on top, [future] is empty
    and a [redo] is a no-op; so it is after each entry point that commits
    (shape creation, deletion, image completion, the object-modified
    hook), while an entry point that does not reach [saveState] (a layer
    control among them) leaves the history as it was; and after record,
    undo, record in a row [future] is empty. *)
Theorem record_clears_future (st : State) :
  (forall c,
      let st' := exec (saveState c) st in
      past (historyRef st') = past (historyRef st) ++ [capture c] /\
      future (historyRef st') = [] /\
      redo st' = (Returned tt, st')) /\
  (forall k,
      commits k st = true ->
      fst (entry k st) = Returned tt /\
      List.length (past (historyRef (exec (entry k) st)))
        = S (List.length (past (historyRef st))) /\
      future (historyRef (exec (entry k) st)) = [] /\
      redo (exec (entry k) st) = (Returned tt, exec (entry k) st)) /\
  (forall k,
      commits k st = false ->
      historyRef (exec (entry k) st) = historyRef st) /\
  (forall c1 c2,
      future (historyRef (exec (saveState c2) (exec undo (exec (saveState c1) st)))) = []).
Proof.
  split; [|split; [|split]].
  - intros c st'. repeat split.
    apply redo_floor. reflexivity.
  - intros k H. destruct (entry_commits k st H) as (c' & Hr & _ & Hp & Hf).
    repeat split; try assumption.
    + rewrite Hp, length_app. simpl. lia.
    + apply redo_floor. exact Hf.
  - intros k H. now destruct (entry_skips k st H) as (Hh & _).
  - reflexivity.
Qed.

Lemma find_fresh (o : Fabric.Object) (l : list Fabric.Object) :
  Forall (fun x => Fabric.ref x <> Fabric.ref o) l ->
  find (Fabric.is_ref (Fabric.ref o)) (l ++ [o]) = Some o.
Proof.
  induction l as [|a l IH]; intros H; simpl.
  - unfold Fabric.is_ref. now rewrite Nat.eqb_refl.
  - inversion H as [|? ? Ha Hl]; subst. unfold Fabric.is_ref at 1.
    apply Nat.eqb_neq in Ha. rewrite Ha. now apply IH.
Qed.

(** C3. [addShape] on a mounted canvas, for each of the four kinds:
    the new object has the literal default geometry and the current
    element colour (as fill, for a line as stroke), it is appended to the
    surface's object list and made the active selection, and one new
    snapshot, of the surface with the shape, is pushed onto [past]. *)
Theorem addShape_records (type : string) (st : State) (c : FabricCanvas) :
  canvas st = Some c ->
  In type ["rectangle"; "circle"; "triangle"; "line"] ->
  exists (options : Fabric.Props) (c' : FabricCanvas),
    let shape := Fabric.mkObject (heap st) options in
    let color := Some (elementColor st) in
    (type = "rectangle" ->
     options = Fabric.mkProps Fabric.rect (Some 100) (Some 100) (Some 100) (Some 100)
                 None None color None None None None None None) /\
    (type = "circle" ->
     options = Fabric.mkProps Fabric.circle (Some 100) (Some 100) None None
                 (Some 50) None color None None None None None None) /\
    (type = "triangle" ->
     options = Fabric.mkProps Fabric.triangle (Some 100) (Some 100) (Some 100) (Some 100)
                 None None color None None None None None None) /\
    (type = "line" ->
     options = Fabric.mkProps Fabric.line None None None None
                 None (Some (50, 100, 200, 100)) None color (Some 2)
                 None None None None) /\
    addShape type st = (Returned tt, exec (addShape type) st) /\
    canvas (exec (addShape type) st) = Some c' /\
    Fabric._objects c' = Fabric._objects c ++ [shape] /\
    Fabric._activeObject c' = Some (Fabric.ref shape) /\
    (Forall (fun x => Fabric.ref x <> heap st) (Fabric._objects c) ->
     Fabric.getActiveObject c' = Some shape) /\
    past (historyRef (exec (addShape type) st)) = past (historyRef st) ++ [capture c'] /\
    List.length (past (historyRef (exec (addShape type) st)))
      = S (List.length (past (historyRef st))) /\
    future (historyRef (exec (addShape type) st)) = [].
Proof.
  intros Hc Hin. destruct st as [cv fs ff fc ec h ts hp]. cbn [canvas] in Hc. subst cv.
  cbn [heap elementColor].
  simpl in Hin.
  exists (match shape_options type ec with
          | Some options => options
          | None => Fabric.blank Fabric.rect
          end).
  destruct Hin as [<- | [<- | [<- | [<- | []]]]];
    (eexists; cbn; repeat split; try discriminate; try reflexivity;
     [ intros Hfresh; unfold Fabric.getActiveObject; cbn;
       match goal with |- find _ (_ ++ [?o]) = _ => exact (find_fresh o _ Hfresh) end
     | rewrite JSFacts.length_push; reflexivity ]).
Qed.

Lemma addText_defers_history (st : State) :
  fst (addText st) = Returned tt /\
  historyRef (exec addText st) = historyRef st /\
  (canvas st <> None -> canvas (exec addText st) <> None).
Proof.
  destruct st as [[c|] fs ff fc ec h ts hp]; now repeat split.
Qed.

(** C9. [addText] never touches the history: [past] and [future] are
    as before.  On a mounted canvas it appends an editable text with the
    literal default content and the current font family, size and colour
    and makes it the active selection. *)
Theorem addText_defers_record (st : State) :
  addText st = (Returned tt, exec addText st) /\
  historyRef (exec addText st) = historyRef st /\
  (forall c, canvas st = Some c ->
     let text := Fabric.mkObject (heap st)
                   (Fabric.mkProps Fabric.i_text (Some 100) (Some 100) None None None None
                      (Some (fontColor st)) None None (Some "Click to edit text")
                      (Some (fontFamily st)) (Some (fontSize st)) None) in
     exists c',
       canvas (exec addText st) = Some c' /\
       Fabric._objects c' = Fabric._objects c ++ [text] /\
       Fabric._activeObject c' = Some (Fabric.ref text)).
Proof.
  destruct st as [[c|] fs ff fc ec h ts hp].
  - repeat split. intros c0 [= <-]. eexists. cbn. repeat split.
  - repeat split. intros c0 H. discriminate.
Qed.

(** C6, as the code has it. Without a selection, [moveLayer] (either
    direction), [bringToFront] and [sendToBack] report the notice
    [Please select an element first!] and change nothing else;
    [deleteSelected] is a silent no-op, the whole state (toasts included)
    stays as it was.  None of them reaches [saveState]. *)
Theorem no_selection_no_record (st : State) (c : FabricCanvas) :
  canvas st = Some c ->
  Fabric.getActiveObject c = None ->
  let notified := with_toasts (toasts st ++ ["Please select an element first!"]) st in
  deleteSelected st = (Returned tt, st) /\
  moveLayer up st = (Returned tt, notified) /\
  moveLayer down st = (Returned tt, notified) /\
  bringToFront st = (Returned tt, notified) /\
  sendToBack st = (Returned tt, notified) /\
  canvas notified = canvas st /\
  historyRef notified = historyRef st.
Proof.
  intros Hc Ha notified. subst notified.
  unfold deleteSelected, moveLayer, bringToFront, sendToBack, guard_canvas, bind,
    canvas_getActiveObject, gets.
  rewrite Hc, Ha. repeat split. exact Hc.
Qed.

Lemma find_map_ref (r : nat) (g : Fabric.Props -> Fabric.Props) (l : list Fabric.Object) :
  find (Fabric.is_ref r)
    (map (fun o => if Fabric.is_ref r o
                   then Fabric.mkObject (Fabric.ref o) (g (Fabric.props o)) else o) l)
  = option_map (fun o => Fabric.mkObject (Fabric.ref o) (g (Fabric.props o)))
      (find (Fabric.is_ref r) l).
Proof.
  induction l as [|a l IH]; [reflexivity|]. simpl.
  destruct (Fabric.is_ref r a) eqn:E.
  - unfold Fabric.is_ref in *. simpl. now rewrite E.
  - now rewrite E.
Qed.

(** C7. A change of any style field while an object is selected pushes
    the relevant fields onto that object and nothing else: a text gets
    font family, font size and fill (the font colour); a line gets the
    stroke colour; any other object gets the fill colour.  The canvas is
    rendered once more, the other objects, the order and the history
    are as before. *)
Theorem style_change_pushed (chg : StyleChange) (st : State) (c : FabricCanvas)
    (o : Fabric.Object) :
  canvas st = Some c ->
  Fabric.getActiveObject c = Some o ->
  differs chg st = true ->
  let st1 := changed chg st in
  exists (push_style : Fabric.Props -> Fabric.Props) (c' : FabricCanvas),
    setStyle chg st = (Returned tt, exec (setStyle chg) st) /\
    canvas (exec (setStyle chg) st) = Some c' /\
    c' = Fabric.renderAll (Fabric.set c (Fabric.ref o) push_style) /\
    Fabric.getActiveObject c' =
      Some (Fabric.mkObject (Fabric.ref o) (push_style (Fabric.props o))) /\
    Fabric.renders c' = S (Fabric.renders c) /\
    historyRef (exec (setStyle chg) st) = historyRef st /\
    toasts (exec (setStyle chg) st) = toasts st /\
    (forall p, unstyled (push_style p) = unstyled p) /\
    match Fabric.type (Fabric.props o) with
    | Fabric.i_text =>
        forall p,
          Fabric.fontFamily (push_style p) = Some (fontFamily st1) /\
          Fabric.fontSize (push_style p) = Some (fontSize st1) /\
          Fabric.fill (push_style p) = Some (fontColor st1) /\
          Fabric.stroke (push_style p) = Fabric.stroke p
    | Fabric.line =>
        forall p,
          Fabric.stroke (push_style p) = Some (elementColor st1) /\
          Fabric.fill (push_style p) = Fabric.fill p /\
          Fabric.fontFamily (push_style p) = Fabric.fontFamily p /\
          Fabric.fontSize (push_style p) = Fabric.fontSize p
    | _ =>
        forall p,
          Fabric.fill (push_style p) = Some (elementColor st1) /\
          Fabric.stroke (push_style p) = Fabric.stroke p /\
          Fabric.fontFamily (push_style p) = Fabric.fontFamily p /\
          Fabric.fontSize (push_style p) = Fabric.fontSize p
    end.
Proof.
  intros Hc Ha Hd st1.
  exists (match Fabric.type (Fabric.props o) with
          | Fabric.i_text => set_text_style (fontFamily st1) (fontSize st1) (fontColor st1)
          | Fabric.line => set_stroke (elementColor st1)
          | _ => set_fill (elementColor st1)
          end).
  eexists.
  assert (Hget : forall g,
    Fabric.getActiveObject (Fabric.renderAll (Fabric.set c (Fabric.ref o) g)) =
    Some (Fabric.mkObject (Fabric.ref o) (g (Fabric.props o)))).
  { intros g. unfold Fabric.getActiveObject in *. cbn [Fabric.renderAll Fabric.set
      Fabric._activeObject Fabric._objects].
    destruct (Fabric._activeObject c) as [r|]; [|discriminate].
    pose proof (find_some _ _ Ha) as [_ Hr]. unfold Fabric.is_ref in Hr.
    apply Nat.eqb_eq in Hr. subst r.
    rewrite find_map_ref, Ha. reflexivity. }
  assert (Hrun : fst (setStyle chg st) = Returned tt /\
    canvas (exec (setStyle chg) st) =
    Some (Fabric.renderAll (Fabric.set c (Fabric.ref o)
      (match Fabric.type (Fabric.props o) with
       | Fabric.i_text => set_text_style (fontFamily st1) (fontSize st1) (fontColor st1)
       | Fabric.line => set_stroke (elementColor st1)
       | _ => set_fill (elementColor st1)
       end))) /\
    historyRef (exec (setStyle chg) st) = historyRef st /\
    toasts (exec (setStyle chg) st) = toasts st).
  { subst st1. destruct st as [cv fs ff fc ec h ts hp]. cbn [canvas] in Hc. subst cv.
    destruct chg; unfold differs in Hd; cbn [fontFamily fontSize fontColor elementColor] in Hd;
      apply negb_true_iff in Hd;
      unfold setStyle, setFontFamily, setFontSize, setFontColor,
      setElementColor, updateSelectedObject, exec, bind, modify, guard_canvas,
      canvas_getActiveObject, gets;
      cbn [fontFamily fontSize fontColor elementColor]; rewrite Hd;
      cbn [canvas with_fontFamily with_fontSize
      with_fontColor with_elementColor changed fst snd];
    rewrite Ha; destruct (Fabric.type (Fabric.props o)); cbn; repeat split. }
  destruct Hrun as (Hret & Hcan & Hh & Ht).
  split; [now apply returned_exec|].
  split; [exact Hcan|]. split; [reflexivity|]. split; [apply Hget|].
  split; [reflexivity|]. split; [exact Hh|]. split; [exact Ht|].
  split.
  - intros p. destruct (Fabric.type (Fabric.props o)); reflexivity.
  - destruct (Fabric.type (Fabric.props o)); intros p; repeat split.
Qed.

(** With an object selected each layer control throws at its z-order
    call and leaves the state as it found it. *)
Lemma layer_controls_throw (st : State) (c : FabricCanvas) (o : Fabric.Object) :
  canvas st = Some c ->
  Fabric.getActiveObject c = Some o ->
  (forall d, moveLayer d st = (Thrown TypeError, st)) /\
  bringToFront st = (Thrown TypeError, st) /\
  sendToBack st = (Thrown TypeError, st).
Proof.
  intros Hc Ha. split; [intros d|split].
  - pose proof (layer_entry_run (LayerMoved d) st eq_refl) as H.
    now rewrite Hc, Ha in H.
  - pose proof (layer_entry_run BroughtToFront st eq_refl) as H.
    now rewrite Hc, Ha in H.
  - pose proof (layer_entry_run SentToBack st eq_refl) as H.
    now rewrite Hc, Ha in H.
Qed.

(** A run of relative moves with a selection ends at the first one. *)
Lemma moves_throw (moves : list Direction) (st : State) (c : FabricCanvas)
    (o : Fabric.Object) :
  canvas st = Some c ->
  Fabric.getActiveObject c = Some o ->
  exec (for_each moves moveLayer) st = st.
Proof.
  intros Hc Ha. destruct moves as [|d moves]; [reflexivity|].
  unfold exec. cbn [for_each]. unfold bind.
  destruct (layer_controls_throw st c o Hc Ha) as (Hm & _). now rewrite (Hm d).
Qed.

(** C8, on the code. With an object selected, [bringToFront] throws a
    [TypeError] at its call [canvas.bringToFront(activeObject)], which is
    no method of the canvas, before [renderAll], [saveState] and the
    toast: the object list, the selection, the history and the toasts are
    as they were.  So it is after any relative moves, each of which
    throws in the same way: the object is where it was. *)
Theorem bringToFront_throws (moves : list Direction) (st : State)
    (c : FabricCanvas) (o : Fabric.Object) :
  canvas st = Some c ->
  Fabric.getActiveObject c = Some o ->
  bringToFront st = (Thrown TypeError, st) /\
  exec bringToFront (exec (for_each moves moveLayer) st) = st /\
  canvas (exec bringToFront (exec (for_each moves moveLayer) st)) = Some c /\
  historyRef (exec bringToFront (exec (for_each moves moveLayer) st)) = historyRef st.
Proof.
  intros Hc Ha.
  destruct (layer_controls_throw st c o Hc Ha) as (_ & Hf & _).
  assert (H : exec bringToFront (exec (for_each moves moveLayer) st) = st).
  { rewrite (moves_throw moves st c o Hc Ha). unfold exec. now rewrite Hf. }
  split; [exact Hf|]. split; [exact H|]. rewrite H. split; [exact Hc | reflexivity].
Qed.

Lemma snoc_cases {A : Type} (l : list A) :
  l = [] \/ exists ps s, l = ps ++ [s].
Proof.
  destruct l as [|a l] using rev_ind; [now left | right; now eexists; eexists].
Qed.

Lemma undo_throws (st : State) (e : Exn) :
  fst (undo st) = Thrown e ->
  exists ps s,
    past (historyRef st) = ps ++ [s] /\
    exec undo st = with_history (mkHistory ps (future (historyRef st) ++ [s])) st.
Proof.
  unfold exec, undo. destruct (canvas st) as [c|] eqn:Ec; [|discriminate].
  destruct (List.length (past (historyRef st)) <=? 1)%nat; [discriminate|].
  destruct (snoc_cases (past (historyRef st))) as [-> | (ps & s & ->)].
  - discriminate.
  - change (ps ++ [s]) with (push ps s). rewrite JSFacts.pop_push.
    destruct (truthy s); [|discriminate].
    cbn [historyRef with_history past future].
    unfold bind at 1 3. unfold parse.
    destruct (peek ps) as [p|].
    + destruct (JSON_parse p) as [j|].
      * unfold ret. rewrite (loadFromJSON_run j _ c) by exact Ec. discriminate.
      * intros _. exists ps, s. split; reflexivity.
    + intros _. exists ps, s. split; reflexivity.
Qed.

Lemma redo_throws (st : State) (e : Exn) :
  fst (redo st) = Thrown e ->
  exists fs s,
    future (historyRef st) = fs ++ [s] /\
    exec redo st = with_history (mkHistory (past (historyRef st) ++ [s]) fs) st.
Proof.
  unfold exec, redo. destruct (canvas st) as [c|] eqn:Ec; [|discriminate].
  destruct (List.length (future (historyRef st)) =? 0)%nat; [discriminate|].
  destruct (snoc_cases (future (historyRef st))) as [-> | (fs & s & ->)].
  - discriminate.
  - change (fs ++ [s]) with (push fs s). rewrite JSFacts.pop_push.
    destruct (truthy s); [|discriminate].
    cbn [historyRef with_history past future].
    unfold bind at 1 3. unfold parse.
    destruct (JSON_parse s) as [j|].
    + unfold ret. rewrite (loadFromJSON_run j _ c) by exact Ec. discriminate.
    + intros _. exists fs, s. split; reflexivity.
Qed.

(** C4, as the code has it. When the restore inside [undo] or [redo]
    fails, the exception leaves the closure, the surface and everything
    but the history are exactly as before the call, and the history has
    already been moved by one entry: after a failed [undo] the top of
    [past] sits on [future], after a failed [redo] the top of [future]
    sits on [past]. *)
Theorem failed_restore_keeps_surface (st : State) (e : Exn) :
  (fst (undo st) = Thrown e ->
   exists ps s,
     past (historyRef st) = ps ++ [s] /\
     exec undo st = with_history (mkHistory ps (future (historyRef st) ++ [s])) st /\
     canvas (exec undo st) = canvas st /\
     toasts (exec undo st) = toasts st) /\
  (fst (redo st) = Thrown e ->
   exists fs s,
     future (historyRef st) = fs ++ [s] /\
     exec redo st = with_history (mkHistory (past (historyRef st) ++ [s]) fs) st /\
     canvas (exec redo st) = canvas st /\
     toasts (exec redo st) = toasts st).
Proof.
  split; intros H.
  - destruct (undo_throws st e H) as (ps & s & Hp & ->).
    exists ps, s. now repeat split.
  - destruct (redo_throws st e H) as (fs & s & Hf & ->).
    exists fs, s. now repeat split.
Qed.

(** ** Sessions *)

Lemma two_last {A : Type} (l : list A) :
  (1 < List.length l)%nat -> exists ps p s, l = ps ++ [p; s].
Proof.
  intros H. destruct (snoc_cases l) as [-> | (l1 & s & ->)]; [simpl in H; lia|].
  destruct (snoc_cases l1) as [-> | (ps & p & ->)]; [simpl in H; lia|].
  exists ps, p, s. now rewrite <- app_assoc.
Qed.

Lemma undo_ok (st : State) :
  history_ok st -> fst (undo st) = Returned tt /\ history_ok (exec undo st).
Proof.
  intros (Hc & Hp & Hall).
  destruct (Nat.le_gt_cases (List.length (past (historyRef st))) 1) as [Hle | Hgt].
  - unfold exec. rewrite (undo_floor st Hle). now repeat split.
  - destruct (two_last _ Hgt) as (ps & p & s & Eps).
    destruct (canvas st) as [c|] eqn:Ec; [|congruence].
    rewrite Eps in Hall. apply Forall_app in Hall as [Hpast Hfut].
    apply Forall_app in Hpast as [Hps Hpq].
    inversion Hpq as [|? ? [jp ->] Hq]; subst.
    inversion Hq as [|? ? [js ->] _]; subst.
    unfold exec.
    rewrite (undo_step st c ps _ _ jp Ec Eps (JSON_stringify_truthy js)
               (JSON_parse_stringify jp)).
    split; [reflexivity|]. cbn [snd]. repeat split.
    + discriminate.
    + cbn [restored historyRef past]. now destruct ps.
    + cbn [restored historyRef past future].
      repeat (apply Forall_app; split); try assumption;
        repeat constructor; now eexists.
Qed.

Lemma redo_ok (st : State) :
  history_ok st -> fst (redo st) = Returned tt /\ history_ok (exec redo st).
Proof.
  intros (Hc & Hp & Hall).
  destruct (snoc_cases (future (historyRef st))) as [Ef | (fs & s & Ef)].
  - unfold exec. rewrite (redo_floor st Ef). now repeat split.
  - destruct (canvas st) as [c|] eqn:Ec; [|congruence].
    rewrite Ef in Hall. apply Forall_app in Hall as [Hpast Hfut].
    apply Forall_app in Hfut as [Hfs Hs].
    inversion Hs as [|? ? [js ->] _]; subst.
    unfold exec.
    rewrite (redo_step st c fs _ js Ec Ef (JSON_stringify_truthy js)
               (JSON_parse_stringify js)).
    split; [reflexivity|]. cbn [snd]. repeat split.
    + discriminate.
    + cbn [restored historyRef past]. now destruct (past (historyRef st)).
    + cbn [restored historyRef past future].
      repeat (apply Forall_app; split); try assumption;
        repeat constructor; now eexists.
Qed.

Lemma uncommitted_ok (m : M unit) (st : State) :
  history_ok st ->
  historyRef (exec m st) = historyRef st ->
  canvas (exec m st) <> None ->
  history_ok (exec m st).
Proof. intros (Hc & Hp & Hall) Hh Hc'. unfold history_ok. now rewrite Hh. Qed.

Lemma setStyle_uncommitted (chg : StyleChange) (st : State) :
  fst (setStyle chg st) = Returned tt /\
  historyRef (exec (setStyle chg) st) = historyRef st /\
  (canvas st <> None -> canvas (exec (setStyle chg) st) <> None).
Proof.
  destruct st as [[c|] fs ff fc ec h ts hp];
    destruct chg; unfold setStyle, setFontFamily, setFontSize, setFontColor,
      setElementColor, updateSelectedObject, exec, bind, modify, guard_canvas,
      canvas_getActiveObject, gets, ret;
    cbn [fontFamily fontSize fontColor elementColor];
    match goal with |- context [if ?b then _ else _] => destruct b end;
    cbn; try (now repeat split);
    destruct (Fabric.getActiveObject c) as [o|]; cbn; try (now repeat split);
    destruct (Fabric.type (Fabric.props o)); cbn; now repeat split.
Qed.

(** Every handler leaves a state that is [history_ok] as one, and
    every handler but a layer control returns. *)
Lemma handle_ok (ev : Event) (st : State) :
  history_ok st ->
  (layer_control ev = false -> fst (handle ev st) = Returned tt) /\
  history_ok (exec (handle ev) st).
Proof.
  intros Hok. destruct ev as [k | | chg | r | r f | |]; cbn [handle].
  - destruct (commits k st) eqn:E.
    + destruct (entry_commits k st E) as (c' & Hr & Hc' & Hp' & Hf').
      split; [intros _; exact Hr|]. destruct Hok as (_ & _ & Hall). repeat split.
      * congruence.
      * rewrite Hp'. now destruct (past (historyRef st)).
      * rewrite Hp', Hf', app_nil_r. apply Forall_app in Hall as [Hpast _].
        apply Forall_app. split; [exact Hpast|]. repeat constructor. now eexists.
    + destruct (entry_skips k st E) as (Hh & Hc').
      split; [now apply entry_returns|]. apply uncommitted_ok; try assumption.
      rewrite Hc'. now destruct Hok.
  - destruct (addText_defers_history st) as (Hr & Hh & Hc').
    split; [intros _; exact Hr|]. apply uncommitted_ok; try assumption.
    apply Hc'. now destruct Hok.
  - destruct (setStyle_uncommitted chg st) as (Hr & Hh & Hc').
    split; [intros _; exact Hr|]. apply uncommitted_ok; try assumption.
    apply Hc'. now destruct Hok.
  - split; [reflexivity|]. apply uncommitted_ok; try assumption; [reflexivity|].
    destruct Hok as (Hc & _). unfold exec, select, canvas_do, modify. cbn.
    now destruct (canvas st).
  - destruct Hok as (Hc & Hp & Hall).
    destruct st as [[c|] fs ff fc ec h ts hp]; [|now cbn in Hc].
    split; [reflexivity|]. cbn in *. repeat split.
    + discriminate.
    + now destruct (past h).
    + rewrite app_nil_r. apply Forall_app in Hall as [Hpast _].
      apply Forall_app. split; [exact Hpast|]. repeat constructor. now eexists.
  - destruct (undo_ok st Hok) as [Hr Hk]. now split.
  - destruct (redo_ok st Hok) as [Hr Hk]. now split.
Qed.

Lemma mounted_ok : history_ok (exec (mount true) initialState).
Proof.
  repeat split; try discriminate. repeat constructor. now eexists.
Qed.

(** In every session after the mount the history stays well formed, so
    [past] is never empty and no handler but a layer control, [undo] and
    [redo] included, ever throws. *)
Lemma session_ok (evs : list Event) :
  forall st, history_ok st -> history_ok (session evs st).
Proof.
  induction evs as [|ev evs IH]; intros st Hok; [exact Hok|].
  cbn [session fold_left]. apply IH. now apply handle_ok.
Qed.

Lemma session_never_throws (evs : list Event) (ev : Event) :
  let st := session evs (exec (mount true) initialState) in
  past (historyRef st) <> [] /\
  (layer_control ev = false -> fst (handle ev st) = Returned tt).
Proof.
  intros st. pose proof (session_ok evs _ mounted_ok) as Hok. fold st in Hok.
  split; [now destruct Hok as (_ & Hp & _) | now apply handle_ok].
Qed.

(** ** References in a session *)

Lemma refs_ok_intro (st : State) (l : list Fabric.Object) (a : option nat)
    (bg : string) (n : nat) :
  canvas st = Some (Fabric.mkCanvas l a bg n) ->
  NoDup (map Fabric.ref l) ->
  Forall (fun o => (Fabric.ref o < heap st)%nat) l ->
  refs_ok st.
Proof. intros Hc Hnd Hlt c' Hc'. rewrite Hc in Hc'. injection Hc' as <-. now split. Qed.

Lemma refs_add (l : list Fabric.Object) (n : nat) (p : Fabric.Props) :
  NoDup (map Fabric.ref l) ->
  Forall (fun o => (Fabric.ref o < n)%nat) l ->
  NoDup (map Fabric.ref (l ++ [Fabric.mkObject n p])) /\
  Forall (fun o => (Fabric.ref o < S n)%nat) (l ++ [Fabric.mkObject n p]).
Proof.
  intros Hnd Hlt. split.
  - rewrite map_app. simpl. apply NoDup_app; [exact Hnd | repeat constructor; intros [] |].
    intros r Hr [<- | []]. apply in_map_iff in Hr as (o & Ho & Hin).
    rewrite Forall_forall in Hlt. specialize (Hlt o Hin). simpl in Ho. lia.
  - apply Forall_app. split.
    + eapply Forall_impl; [|exact Hlt]. simpl. intros; lia.
    + constructor; [simpl; lia | constructor].
Qed.

Lemma refs_filter (f : Fabric.Object -> bool) (l : list Fabric.Object) (n : nat) :
  NoDup (map Fabric.ref l) ->
  Forall (fun o => (Fabric.ref o < n)%nat) l ->
  NoDup (map Fabric.ref (filter f l)) /\
  Forall (fun o => (Fabric.ref o < n)%nat) (filter f l).
Proof.
  intros Hnd Hlt. split.
  - induction l as [|a l IH]; [constructor|]. simpl in *.
    inversion Hnd as [|? ? Hnotin Hnd']; subst. inversion Hlt; subst.
    destruct (f a); [|now apply IH]. simpl. constructor; [|now apply IH].
    intros Hin. apply Hnotin. apply in_map_iff in Hin as (o & Ho & Hin).
    apply filter_In in Hin as [Hin _]. apply in_map_iff. now exists o.
  - apply Forall_forall. intros o Ho. apply filter_In in Ho as [Ho _].
    rewrite Forall_forall in Hlt. now apply Hlt.
Qed.

Lemma refs_set (r : nat) (g : Fabric.Props -> Fabric.Props) (l : list Fabric.Object)
    (n : nat) :
  NoDup (map Fabric.ref l) ->
  Forall (fun o => (Fabric.ref o < n)%nat) l ->
  let l' := map (fun o => if Fabric.is_ref r o
                          then Fabric.mkObject (Fabric.ref o) (g (Fabric.props o))
                          else o) l in
  NoDup (map Fabric.ref l') /\ Forall (fun o => (Fabric.ref o < n)%nat) l'.
Proof.
  intros Hnd Hlt l'. subst l'. split.
  - rewrite map_map.
    rewrite (map_ext _ Fabric.ref); [exact Hnd|].
    intros o. now destruct (Fabric.is_ref r o).
  - apply Forall_map. eapply Forall_impl; [|exact Hlt].
    intros o Ho. now destruct (Fabric.is_ref r o).
Qed.

Lemma refs_enliven (n : nat) (ps : list Fabric.Props) :
  NoDup (map Fabric.ref (Fabric.enliven n ps)) /\
  Forall (fun o => (n <= Fabric.ref o < n + List.length ps)%nat) (Fabric.enliven n ps).
Proof.
  revert n. induction ps as [|p ps IH]; intros n; simpl; [split; constructor|].
  destruct (IH (S n)) as [Hnd Hlt]. split.
  - constructor; [|exact Hnd]. intros Hin. apply in_map_iff in Hin as (o & Ho & Hin).
    rewrite Forall_forall in Hlt. specialize (Hlt o Hin). lia.
  - constructor; [simpl; lia|]. eapply Forall_impl; [|exact Hlt]. simpl. intros; lia.
Qed.

Lemma refs_ok_restored (j : Fabric.CanvasJSON) (msg : string) (h : History)
    (c : FabricCanvas) (st : State) :
  refs_ok (restored j msg h c st).
Proof.
  destruct (refs_enliven (heap st) (Fabric.objects j)) as [Hnd Hlt].
  eapply refs_ok_intro; [reflexivity | exact Hnd |].
  eapply Forall_impl; [|exact Hlt]. cbn [restored heap]. intros; lia.
Qed.

Lemma refs_ok_history (h : History) (st : State) :
  refs_ok st -> refs_ok (with_history h st).
Proof. intros H c Hc. exact (H c Hc). Qed.

Lemma refs_ok_toasts (t : list string) (st : State) :
  refs_ok st -> refs_ok (with_toasts t st).
Proof. intros H c Hc. exact (H c Hc). Qed.

(** The restore at the end of [undo] and [redo]: [JSON.parse] throws on
    [undefined] and on malformed text, otherwise the snapshot is loaded. *)
Lemma restore_run (text : option string) (msg : string) (c : FabricCanvas)
    (st : State) :
  canvas st = Some c ->
  (json <- parse text ;;
   canvas_loadFromJSON json (canvas_do Fabric.renderAll ;; toast msg)) st =
  match text with
  | Some s =>
      match JSON_parse s with
      | Some j => (Returned tt, restored j msg (historyRef st) c st)
      | None => (Thrown SyntaxError, st)
      end
  | None => (Thrown SyntaxError, st)
  end.
Proof.
  intros Hc. unfold bind at 1. unfold parse.
  destruct text as [s|]; [|reflexivity].
  destruct (JSON_parse s) as [j|]; [|reflexivity].
  unfold ret. now apply loadFromJSON_run.
Qed.

(** What an [undo] can leave behind. *)
Lemma undo_cases (st : State) :
  exec undo st = st \/
  (exists h, exec undo st = with_history h st) \/
  (exists j h c, exec undo st = restored j "Undo successful!" h c st).
Proof.
  unfold exec, undo. destruct (canvas st) as [c|] eqn:Ec; [|now left].
  destruct (List.length (past (historyRef st)) <=? 1)%nat; [now left|].
  destruct (pop (past (historyRef st))) as [[cur|] past1]; [|right; left; now eexists].
  destruct (truthy cur); [|right; left; now eexists].
  rewrite (restore_run _ _ c) by exact Ec.
  cbn [historyRef with_history past future].
  destruct (peek past1) as [p|]; [|right; left; now eexists].
  destruct (JSON_parse p) as [j|]; [|right; left; now eexists].
  right; right. exists j. eexists. exists c. reflexivity.
Qed.

(** What a [redo] can leave behind. *)
Lemma redo_cases (st : State) :
  exec redo st = st \/
  (exists h, exec redo st = with_history h st) \/
  (exists j h c, exec redo st = restored j "Redo successful!" h c st).
Proof.
  unfold exec, redo. destruct (canvas st) as [c|] eqn:Ec; [|now left].
  destruct (List.length (future (historyRef st)) =? 0)%nat; [now left|].
  destruct (pop (future (historyRef st))) as [[next|] future1]; [|right; left; now eexists].
  destruct (truthy next); [|right; left; now eexists].
  rewrite (restore_run _ _ c) by exact Ec.
  destruct (JSON_parse next) as [j|]; [|right; left; now eexists].
  right; right. exists j. eexists. exists c. reflexivity.
Qed.

Lemma refs_ok_none (st : State) : canvas st = None -> refs_ok st.
Proof. intros H c Hc. congruence. Qed.

(** Closes a goal [refs_ok st'] where [st'] is an explicit state whose
    objects are the old ones added to, filtered or updated in place. *)
Ltac refs_step Hnd Hlt :=
  eapply refs_ok_intro; [reflexivity | |]; cbn [heap];
  first
    [ exact Hnd | exact Hlt
    | apply (refs_add _ _ _ Hnd Hlt)
    | apply (refs_filter _ _ _ Hnd Hlt)
    | apply (refs_set _ _ _ _ Hnd Hlt) ].

(** Every handler keeps the references different and below the next free
    one. *)
Lemma handle_refs_ok (ev : Event) (st : State) :
  refs_ok st -> refs_ok (exec (handle ev) st).
Proof.
  intros Hok. destruct ev as [k | | chg | r | r f | |]; cbn [handle].
  6: { destruct (undo_cases st) as [-> | [(h & ->) | (j & h & c & ->)]];
       [exact Hok | now apply refs_ok_history | apply refs_ok_restored]. }
  6: { destruct (redo_cases st) as [-> | [(h & ->) | (j & h & c & ->)]];
       [exact Hok | now apply refs_ok_history | apply refs_ok_restored]. }
  all: destruct st as [[[l a bg n]|] fs ff fc ec h ts hp];
    [ destruct (Hok _ eq_refl) as [Hnd Hlt]; cbn [Fabric._objects heap] in Hnd, Hlt
    | apply refs_ok_none ].
  - (* an entry point that may commit *)
    destruct k; cbn [entry].
    + unfold addShape, guard_canvas, exec, bind, gets. cbn [canvas elementColor].
      destruct (shape_options type ec); [|exact Hok]. cbn. refs_step Hnd Hlt.
    + unfold deleteSelected, guard_canvas, exec, bind, canvas_getActiveObject, gets.
      cbn [canvas]. destruct (Fabric.getActiveObject _); [|exact Hok]. cbn.
      refs_step Hnd Hlt.
    + cbn. refs_step Hnd Hlt.
    + unfold moveLayer, guard_canvas, exec, bind, canvas_getActiveObject, gets.
      cbn [canvas]. destruct (Fabric.getActiveObject _); [|cbn; refs_step Hnd Hlt].
      destruct direction; exact Hok.
    + unfold bringToFront, guard_canvas, exec, bind, canvas_getActiveObject, gets.
      cbn [canvas]. destruct (Fabric.getActiveObject _); [exact Hok|].
      cbn. refs_step Hnd Hlt.
    + unfold sendToBack, guard_canvas, exec, bind, canvas_getActiveObject, gets.
      cbn [canvas]. destruct (Fabric.getActiveObject _); [exact Hok|].
      cbn. refs_step Hnd Hlt.
    + cbn. refs_step Hnd Hlt.
  - destruct k; reflexivity.
  - cbn. refs_step Hnd Hlt.
  - reflexivity.
  - destruct chg; unfold setStyle, setFontFamily, setFontSize, setFontColor,
      setElementColor, updateSelectedObject, exec, bind, modify, guard_canvas,
      canvas_getActiveObject, gets, ret;
      cbn [fontFamily fontSize fontColor elementColor];
      match goal with |- context [if ?b then _ else _] => destruct b end;
      cbn; try exact Hok;
      destruct (Fabric.getActiveObject _) as [o|]; cbn; try (refs_step Hnd Hlt);
      destruct (Fabric.type (Fabric.props o)); cbn; refs_step Hnd Hlt.
  - destruct chg; unfold setStyle, setFontFamily, setFontSize, setFontColor,
      setElementColor, exec, bind, gets, ret;
      cbn [fontFamily fontSize fontColor elementColor];
      match goal with |- context [if ?b then _ else _] => destruct b end;
      reflexivity.
  - cbn. refs_step Hnd Hlt.
  - reflexivity.
  - cbn. refs_step Hnd Hlt.
  - reflexivity.
Qed.

Lemma session_refs_ok (evs : list Event) :
  forall st, refs_ok st -> refs_ok (session evs st).
Proof.
  induction evs as [|ev evs IH]; intros st Hok; [exact Hok|].
  cbn [session fold_left]. apply IH. now apply handle_refs_ok.
Qed.

(** In every session after the mount the objects on the canvas have
    references all different, and the next free reference is fresh. *)
Lemma session_refs (evs : list Event) :
  refs_ok (session evs (exec (mount true) initialState)).
Proof.
  apply session_refs_ok. eapply refs_ok_intro; [reflexivity | constructor | constructor].
Qed.

(** X18. After any session that ends with an entry point that commits
    (a shape, a delete with a selection, a loaded image, an object
    modified), undoing every entry above the first and redoing them all
    returns, restores [past] and leaves a surface structurally equal to
    the one committed. *)
Lemma session_undo_redo (evs : list Event) (k : Commit) :
  let st0 := session evs (exec (mount true) initialState) in
  commits k st0 = true ->
  let st := exec (entry k) st0 in
  let N := (List.length (past (historyRef st)) - 1)%nat in
  exists st',
    (times N undo ;; times N redo) st = (Returned tt, st') /\
    past (historyRef st') = past (historyRef st) /\
    future (historyRef st') = [] /\
    surface st' = surface st.
Proof.
  intros st0 Hk st N. subst N.
  destruct (session_ok evs _ mounted_ok) as (_ & _ & Hall). fold st0 in Hall.
  destruct (entry_commits k st0 Hk) as (c' & _ & Hc' & Hp' & Hf'). fold st in Hc', Hp', Hf'.
  apply Forall_app in Hall as [Hpast _].
  assert (Hsync : synced st).
  { unfold synced. rewrite Hc', Hp'. symmetry. apply JSFacts.peek_push. }
  destruct (past (historyRef st)) as [|s0 snaps] eqn:Ep.
  { now destruct (past (historyRef st0)). }
  destruct (undo_redo_roundtrip st s0 snaps) as (st' & Hrun & Hcan & Hps & Hfs & Hs');
    try assumption.
  - congruence.
  - rewrite Hp'. apply Forall_app. split; [exact Hpast|]. repeat constructor. now eexists.
  - exists st'. cbn [List.length].
    replace (S (List.length snaps) - 1)%nat with (List.length snaps) by lia.
    repeat split; try assumption.
    unfold synced in Hs', Hsync. rewrite Hps in Hs'. rewrite Ep in Hsync.
    rewrite <- Hsync in Hs'. unfold surface.
    destruct (canvas st') as [c1|], (canvas st) as [c2|]; try discriminate.
    cbn [option_map] in *. f_equal. apply JSON_stringify_inj.
    unfold capture in Hs'. congruence.
Qed.

End History.

(* ================================================================== *)
(** * Further properties of the history engine *)

Section HistoryMore.

Context {codec : JSONCodec} {laws : JSONLaws codec}.

(** The history an [undo] leaves, whether its restore succeeds or throws. *)
Lemma undo_history (st : State) (c : FabricCanvas) (ps : list string) (p s : string) :
  canvas st = Some c ->
  past (historyRef st) = ps ++ [p; s] ->
  historyRef (exec undo st) =
  if truthy s then mkHistory (ps ++ [p]) (future (historyRef st) ++ [s])
  else mkHistory (ps ++ [p]) (future (historyRef st)).
Proof.
  intros Hc Hp. unfold exec, undo. rewrite Hc, Hp.
  replace (List.length (ps ++ [p; s]) <=? 1)%nat with false
    by (symmetry; apply Nat.leb_gt; rewrite length_app; simpl; lia).
  change (ps ++ [p; s]) with (ps ++ [p] ++ [s]). rewrite app_assoc.
  change ((ps ++ [p]) ++ [s]) with (push (ps ++ [p]) s).
  rewrite JSFacts.pop_push. destruct (truthy s); [|reflexivity].
  rewrite (restore_run _ _ c) by exact Hc.
  cbn [historyRef with_history past future].
  destruct (peek (ps ++ [p])) as [q|]; [|reflexivity].
  destruct (JSON_parse q); reflexivity.
Qed.

(** The history a [redo] leaves, whether its restore succeeds or throws. *)
Lemma redo_history (st : State) (c : FabricCanvas) (fs : list string) (s : string) :
  canvas st = Some c ->
  future (historyRef st) = fs ++ [s] ->
  historyRef (exec redo st) =
  if truthy s then mkHistory (past (historyRef st) ++ [s]) fs
  else mkHistory (past (historyRef st)) fs.
Proof.
  intros Hc Hf. unfold exec, redo. rewrite Hc, Hf.
  replace (List.length (fs ++ [s]) =? 0)%nat with false
    by (symmetry; apply Nat.eqb_neq; rewrite length_app; simpl; lia).
  change (fs ++ [s]) with (push fs s).
  rewrite JSFacts.pop_push. destruct (truthy s); [|reflexivity].
  rewrite (restore_run _ _ c) by exact Hc.
  cbn [historyRef with_history past future].
  destruct (JSON_parse s); reflexivity.
Qed.

(** X1. [undo] never empties [past] and [redo] never shortens it,
    whatever the snapshots are and whether the restore succeeds or
    throws. *)
Theorem past_never_emptied (st : State) :
  past (historyRef st) <> [] ->
  past (historyRef (exec undo st)) <> [] /\
  (List.length (past (historyRef st)) <= List.length (past (historyRef (exec redo st))))%nat.
Proof.
  intros Hne. split.
  - destruct (Nat.le_gt_cases (List.length (past (historyRef st))) 1) as [Hle | Hgt].
    + unfold exec. now rewrite (undo_floor st Hle).
    + destruct (canvas st) as [c|] eqn:Ec; [|unfold exec, undo; now rewrite Ec].
      destruct (two_last _ Hgt) as (ps & p & s & Eps).
      rewrite (undo_history st c ps p s Ec Eps).
      destruct (truthy s); cbn [past]; now destruct ps.
  - destruct (snoc_cases (future (historyRef st))) as [Ef | (fs & s & Ef)].
    + unfold exec. now rewrite (redo_floor st Ef).
    + destruct (canvas st) as [c|] eqn:Ec; [|unfold exec, redo; now rewrite Ec].
      rewrite (redo_history st c fs s Ec Ef).
      destruct (truthy s); cbn [past]; [rewrite length_app; simpl|]; lia.
Qed.

(** X2. [undo] and [redo] only move along one timeline: with truthy
    entries, the snapshots of [past] followed by those of [future] in redo
    order are the same list before and after the call, whether the
    restore succeeds or throws; no entry is lost, doubled or reordered. *)
Theorem timeline_kept (st : State) :
  all_truthy (historyRef st) ->
  timeline (historyRef (exec undo st)) = timeline (historyRef st) /\
  timeline (historyRef (exec redo st)) = timeline (historyRef st).
Proof.
  intros Hall. unfold all_truthy in Hall. split.
  - destruct (Nat.le_gt_cases (List.length (past (historyRef st))) 1) as [Hle | Hgt].
    + unfold exec. now rewrite (undo_floor st Hle).
    + destruct (canvas st) as [c|] eqn:Ec; [|unfold exec, undo; now rewrite Ec].
      destruct (two_last _ Hgt) as (ps & p & s & Eps).
      rewrite (undo_history st c ps p s Ec Eps).
      rewrite Eps in Hall. apply Forall_app in Hall as [Hp _].
      apply Forall_app in Hp as [_ Hps]. inversion Hps as [|? ? _ Hs]; subst.
      inversion Hs as [|? ? Ht _]; subst. rewrite Ht.
      unfold timeline. cbn [past future]. rewrite Eps, rev_app_distr. simpl.
      now rewrite <- !app_assoc.
  - destruct (snoc_cases (future (historyRef st))) as [Ef | (fs & s & Ef)].
    + unfold exec. now rewrite (redo_floor st Ef).
    + destruct (canvas st) as [c|] eqn:Ec; [|unfold exec, redo; now rewrite Ec].
      rewrite (redo_history st c fs s Ec Ef).
      rewrite Ef in Hall. apply Forall_app in Hall as [_ Hf].
      apply Forall_app in Hf as [_ Hs]. inversion Hs as [|? ? Ht _]; subst. rewrite Ht.
      unfold timeline. cbn [past future]. rewrite Ef, rev_app_distr. simpl.
      now rewrite <- !app_assoc.
Qed.

(** X3. A falsy (empty) snapshot on top of a stack is dropped: [undo]
    pops it off [past] without pushing it onto [future] and without
    restoring anything, and [redo] pops it off [future] without pushing it
    onto [past]; both return and the rest of the state stays as it was. *)
Theorem falsy_top_dropped (st : State) (c : FabricCanvas) :
  canvas st = Some c ->
  (forall ps p,
      past (historyRef st) = ps ++ [p; EmptyString] ->
      undo st = (Returned tt,
                 with_history (mkHistory (ps ++ [p]) (future (historyRef st))) st)) /\
  (forall fs,
      future (historyRef st) = fs ++ [EmptyString] ->
      redo st = (Returned tt,
                 with_history (mkHistory (past (historyRef st)) fs) st)).
Proof.
  intros Hc. split.
  - intros ps p Hp. unfold undo. rewrite Hc, Hp.
    replace (List.length (ps ++ [p; EmptyString]) <=? 1)%nat with false
      by (symmetry; apply Nat.leb_gt; rewrite length_app; simpl; lia).
    change (ps ++ [p; EmptyString]) with (ps ++ [p] ++ [EmptyString]). rewrite app_assoc.
    change ((ps ++ [p]) ++ [EmptyString]) with (push (ps ++ [p]) EmptyString).
    now rewrite JSFacts.pop_push.
  - intros fs Hf. unfold redo. rewrite Hc, Hf.
    replace (List.length (fs ++ [EmptyString]) =? 0)%nat with false
      by (symmetry; apply Nat.eqb_neq; rewrite length_app; simpl; lia).
    change (fs ++ [EmptyString]) with (push fs EmptyString).
    now rewrite JSFacts.pop_push.
Qed.

(** X4. One [undo] followed by one [redo] gives the history back exactly,
    and leaves the surface as the top of [past] describes it, so an edit
    that was never recorded is gone. *)
Theorem undo_then_redo (st : State) (c : FabricCanvas) (ps : list string)
    (jp js : Fabric.CanvasJSON) :
  canvas st = Some c ->
  past (historyRef st) = ps ++ [JSON_stringify jp; JSON_stringify js] ->
  exists st',
    (undo ;; redo) st = (Returned tt, st') /\
    historyRef st' = historyRef st /\
    surface st' = Some js.
Proof.
  intros Hc Hp.
  pose proof (undo_step st c ps _ _ jp Hc Hp (JSON_stringify_truthy js)
                (JSON_parse_stringify jp)) as Hu.
  set (st1 := restored jp "Undo successful!" _ c st) in Hu.
  pose proof (redo_step st1 _ (future (historyRef st)) _ js eq_refl eq_refl
                (JSON_stringify_truthy js) (JSON_parse_stringify js)) as Hr.
  eexists. split; [unfold bind; rewrite Hu; exact Hr|]. split.
  - subst st1. cbn [restored historyRef past]. rewrite <- app_assoc. cbn [app].
    rewrite <- Hp. now destruct (historyRef st).
  - unfold surface, restored. cbn [canvas option_map]. now rewrite toJSON_loadFromJSON.
Qed.

End HistoryMore.

(* ================================================================== *)
(** * Further properties of the object closures *)

Section ObjectsMore.

Context {codec : JSONCodec} {laws : JSONLaws codec}.

(** What [addShape] leaves on a mounted canvas, for the helpers below. *)
Lemma addShape_created (type : string) (st : State) (c : FabricCanvas) :
  canvas st = Some c ->
  In type ["rectangle"; "circle"; "triangle"; "line"] ->
  exists (options : Fabric.Props) (c1 : FabricCanvas),
    canvas (exec (addShape type) st) = Some c1 /\
    Fabric._objects c1 = Fabric._objects c ++ [Fabric.mkObject (heap st) options] /\
    Fabric._activeObject c1 = Some (heap st) /\
    past (historyRef (exec (addShape type) st)) = past (historyRef st) ++ [capture c1].
Proof.
  intros Hc Hin. destruct st as [cv fs ff fc ec h ts hp]. cbn [canvas] in Hc. subst cv.
  cbn [heap]. simpl in Hin.
  exists (match shape_options type ec with
          | Some options => options
          | None => Fabric.blank Fabric.rect
          end).
  destruct Hin as [<- | [<- | [<- | [<- | []]]]]; eexists; cbn; repeat split.
Qed.

Lemma addShape_background (type : string) (st : State) (c c1 : FabricCanvas) :
  canvas st = Some c ->
  canvas (exec (addShape type) st) = Some c1 ->
  Fabric.backgroundColor c1 = Fabric.backgroundColor c.
Proof.
  intros Hc. destruct st as [cv fs ff fc ec h ts hp]. cbn [canvas] in Hc. subst cv.
  unfold addShape, guard_canvas, exec, bind, gets. cbn [canvas elementColor].
  destruct (shape_options type ec); cbn; intros [= <-]; reflexivity.
Qed.

Lemma deleteSelected_run (st : State) (c : FabricCanvas) (o : Fabric.Object) :
  canvas st = Some c ->
  Fabric.getActiveObject c = Some o ->
  canvas (exec deleteSelected st) = Some (Fabric.renderAll (Fabric.remove c (Fabric.ref o))) /\
  past (historyRef (exec deleteSelected st))
    = past (historyRef st) ++ [capture (Fabric.renderAll (Fabric.remove c (Fabric.ref o)))] /\
  future (historyRef (exec deleteSelected st)) = [].
Proof.
  intros Hc Ha. unfold exec, deleteSelected, guard_canvas, bind, canvas_getActiveObject, gets.
  rewrite Hc, Ha. cbn. rewrite Hc. now repeat split.
Qed.

Lemma shape_options_kinds (type color : string) :
  ~ In type ["rectangle"; "circle"; "triangle"; "line"] ->
  shape_options type color = None.
Proof.
  intros H. unfold shape_options.
  destruct (String.eqb_spec type "rectangle") as [->|_]; [exfalso; apply H; simpl; tauto|].
  destruct (String.eqb_spec type "circle") as [->|_]; [exfalso; apply H; simpl; tauto|].
  destruct (String.eqb_spec type "triangle") as [->|_]; [exfalso; apply H; simpl; tauto|].
  destruct (String.eqb_spec type "line") as [->|_]; [exfalso; apply H; simpl; tauto|].
  reflexivity.
Qed.

(** X5. [addShape] with a kind that is none of the four cases of its
    [switch] returns at the [default] branch: no object, no selection
    change, no toast, no record; the whole state is as it was. *)
Theorem addShape_unknown_kind (type : string) (st : State) :
  ~ In type ["rectangle"; "circle"; "triangle"; "line"] ->
  addShape type st = (Returned tt, st).
Proof.
  intros H. unfold addShape, guard_canvas, bind, gets.
  destruct (canvas st); [|reflexivity].
  now rewrite (shape_options_kinds _ _ H).
Qed.

(** X6. [deleteSelected] with a selection removes that object and no
    other, leaves the others in their order, leaves nothing selected,
    shows [Element deleted!] and pushes one snapshot of the surface
    without the object; a second [deleteSelected] right after changes
    nothing. *)
Theorem deleteSelected_removes (st : State) (c : FabricCanvas) (o : Fabric.Object) :
  canvas st = Some c ->
  Fabric.getActiveObject c = Some o ->
  exists c',
    let st' := exec deleteSelected st in
    deleteSelected st = (Returned tt, st') /\
    canvas st' = Some c' /\
    Fabric._objects c' = filter (Fabric.not_ref (Fabric.ref o)) (Fabric._objects c) /\
    ~ In o (Fabric._objects c') /\
    Fabric.getActiveObject c' = None /\
    toasts st' = toasts st ++ ["Element deleted!"] /\
    past (historyRef st') = past (historyRef st) ++ [capture c'] /\
    future (historyRef st') = [] /\
    deleteSelected st' = (Returned tt, st').
Proof.
  intros Hc Ha.
  assert (Hact : Fabric._activeObject c = Some (Fabric.ref o)).
  { unfold Fabric.getActiveObject in Ha. destruct (Fabric._activeObject c) as [r|]; [|discriminate].
    apply find_some in Ha as [_ Hr]. apply Nat.eqb_eq in Hr. now subst r. }
  exists (Fabric.renderAll (Fabric.remove c (Fabric.ref o))).
  assert (Hrun : deleteSelected st =
    (Returned tt,
     with_history
       (mkHistory (past (historyRef st) ++
          [capture (Fabric.renderAll (Fabric.remove c (Fabric.ref o)))]) [])
       (with_toasts (toasts st ++ ["Element deleted!"])
          (with_canvas (Some (Fabric.renderAll (Fabric.remove c (Fabric.ref o)))) st)))).
  { unfold deleteSelected, guard_canvas, bind, canvas_getActiveObject, gets.
    rewrite Hc, Ha. cbn. rewrite Hc. reflexivity. }
  assert (Hnone : Fabric.getActiveObject (Fabric.renderAll (Fabric.remove c (Fabric.ref o)))
                  = None).
  { unfold Fabric.getActiveObject. cbn. rewrite Hact. now rewrite Nat.eqb_refl. }
  cbv zeta. unfold exec. rewrite Hrun. cbn [snd].
  repeat split.
  - intros Hin. cbn in Hin. apply filter_In in Hin as [_ Hn].
    unfold Fabric.not_ref in Hn. now rewrite Nat.eqb_refl in Hn.
  - exact Hnone.
  - unfold deleteSelected, guard_canvas, bind, canvas_getActiveObject, gets.
    cbn [canvas with_history with_toasts with_canvas]. now rewrite Hnone.
Qed.

Lemma filter_fresh (r : nat) (l : list Fabric.Object) :
  Forall (fun x => Fabric.ref x <> r) l -> filter (Fabric.not_ref r) l = l.
Proof.
  induction l as [|a l IH]; intros H; [reflexivity|].
  inversion H as [|? ? Ha Hl]; subst. simpl. unfold Fabric.not_ref at 1.
  apply Nat.eqb_neq in Ha. rewrite Ha. simpl. now rewrite IH.
Qed.

(** X7. A shape added and deleted right away: the surface is
    structurally the one of before, [past] has two entries more, and the
    top one is the snapshot of the surface as it was before the shape. *)
Theorem addShape_then_delete (type : string) (st : State) (c : FabricCanvas) :
  canvas st = Some c ->
  In type ["rectangle"; "circle"; "triangle"; "line"] ->
  Forall (fun x => Fabric.ref x <> heap st) (Fabric._objects c) ->
  let st2 := exec deleteSelected (exec (addShape type) st) in
  surface st2 = surface st /\
  option_map Fabric.getActiveObject (canvas st2) = Some None /\
  List.length (past (historyRef st2)) = S (S (List.length (past (historyRef st)))) /\
  peek (past (historyRef st2)) = Some (capture c) /\
  future (historyRef st2) = [].
Proof.
  intros Hc Hin Hfresh st2.
  destruct (addShape_created type st c Hc Hin) as (options & c1 & Hc1 & Ho1 & Ha1 & Hp1).
  destruct (deleteSelected_run _ c1 (Fabric.mkObject (heap st) options) Hc1)
    as (Hc2 & Hp2 & Hf2).
  { unfold Fabric.getActiveObject. rewrite Ha1, Ho1.
    exact (find_fresh (Fabric.mkObject (heap st) options) _ Hfresh). }
  fold st2 in Hc2, Hp2, Hf2. cbn [Fabric.ref] in Hc2, Hp2.
  assert (Hj : Fabric.toJSON (Fabric.renderAll (Fabric.remove c1 (heap st))) = Fabric.toJSON c).
  { unfold Fabric.toJSON. cbn. rewrite Ho1, filter_app. cbn.
    unfold Fabric.not_ref at 2. cbn. rewrite Nat.eqb_refl. cbn.
    rewrite app_nil_r, (filter_fresh _ _ Hfresh).
    rewrite (addShape_background type st c c1 Hc Hc1). reflexivity. }
  repeat split.
  - unfold surface. rewrite Hc2, Hc. cbn [option_map]. now rewrite Hj.
  - rewrite Hc2. cbn [option_map]. f_equal. unfold Fabric.getActiveObject. cbn.
    rewrite Ha1. cbn. now rewrite Nat.eqb_refl.
  - rewrite Hp2, Hp1, !length_app. simpl. lia.
  - rewrite Hp2. unfold capture. rewrite Hj. apply JSFacts.peek_push.
  - exact Hf2.
Qed.

Lemma image_onload_run (rx ry : Z) (st : State) (c : FabricCanvas) :
  canvas st = Some c ->
  let c1 := Fabric.renderAll
              (Fabric.add c (Fabric.mkObject (heap st)
                               (image_of (mkLoaded true true rx ry)))) in
  image_onload rx ry st =
  (Returned tt,
   mkState (Some c1) (fontSize st) (fontFamily st) (fontColor st) (elementColor st)
     (mkHistory (past (historyRef st) ++ [capture c1]) [])
     (toasts st ++ ["Layer added: image"; "Image added!"]) (S (heap st))).
Proof.
  intros Hc. destruct st as [cv sz ff fc ec h ts hp]. cbn [canvas] in Hc. subst cv.
  unfold image_onload, guard_canvas, bind, new, canvas_add, canvas_do, on_object_added,
    on_canvas, saveState, toast, modify, capture, push. cbn.
  now rewrite <- app_assoc.
Qed.

Lemma uploads_run (fs : list Loaded) :
  forall (st : State) (c : FabricCanvas),
    canvas st = Some c ->
    exists c',
      fst (for_each fs reader_onload st) = Returned tt /\
      canvas (exec (for_each fs reader_onload) st) = Some c' /\
      map Fabric.props (Fabric._objects c')
        = map Fabric.props (Fabric._objects c) ++ map image_of (filter completes fs) /\
      Fabric._activeObject c' = Fabric._activeObject c /\
      List.length (past (historyRef (exec (for_each fs reader_onload) st)))
        = (List.length (past (historyRef st)) + List.length (filter completes fs))%nat /\
      (filter completes fs = [] -> exec (for_each fs reader_onload) st = st).
Proof.
  induction fs as [|f fs IH]; intros st c Hc.
  - exists c. unfold exec. cbn. rewrite app_nil_r, Nat.add_0_r. now repeat split.
  - destruct f as [res dec rx ry]. cbn [for_each filter]. unfold exec, bind.
    change (reader_onload (mkLoaded res dec rx ry))
      with (if negb res then ret tt else if dec then image_onload rx ry else ret tt).
    change (completes (mkLoaded res dec rx ry)) with (res && dec).
    destruct res, dec; cbn [negb andb].
    + rewrite (image_onload_run rx ry st c Hc). cbv zeta.
      match goal with |- context [for_each fs reader_onload ?x] => set (st1 := x) end.
      destruct (IH st1 (Fabric.renderAll
                          (Fabric.add c (Fabric.mkObject (heap st)
                                           (image_of (mkLoaded true true rx ry))))) eq_refl)
        as (c' & Hr & Hc' & Ho & Ha & Hl & _).
      exists c'. unfold exec in *. split; [exact Hr|]. split; [exact Hc'|]. split.
      * rewrite Ho. cbn. rewrite map_app. cbn. now rewrite <- app_assoc.
      * split; [exact Ha|]. split; [|discriminate].
        rewrite Hl. subst st1. cbn [historyRef past]. rewrite length_app. cbn. lia.
    + unfold ret. destruct (IH st c Hc) as (c' & Hr & Hc' & Ho & Ha & Hl & Hn).
      exists c'. unfold exec in *. now repeat split.
    + unfold ret. destruct (IH st c Hc) as (c' & Hr & Hc' & Ho & Ha & Hl & Hn).
      exists c'. unfold exec in *. now repeat split.
    + unfold ret. destruct (IH st c Hc) as (c' & Hr & Hc' & Ho & Ha & Hl & Hn).
      exists c'. unfold exec in *. now repeat split.
Qed.

(** X11. [handleImageUpload]: every file whose reader has a result that
    decodes as an image adds one image, 200 wide and at its two draws plus
    50, on top of what is there, in the order the loads complete, and
    pushes one snapshot; the selection is not changed.  A file without a
    reader result, or whose result does not decode, adds nothing and
    records nothing.  So [n] decoded files make [n] objects and [n] history
    entries more; without files, or when no file decodes, nothing
    changes. *)
Theorem upload_adds_and_records (files : option (list Loaded)) (st : State)
    (c : FabricCanvas) :
  canvas st = Some c ->
  let loaded := match files with
                | Some fs => filter completes fs
                | None => []
                end in
  let st' := exec (handleImageUpload files) st in
  exists c',
    handleImageUpload files st = (Returned tt, st') /\
    canvas st' = Some c' /\
    map Fabric.props (Fabric._objects c')
      = map Fabric.props (Fabric._objects c) ++ map image_of loaded /\
    Fabric._activeObject c' = Fabric._activeObject c /\
    List.length (past (historyRef st'))
      = (List.length (past (historyRef st)) + List.length loaded)%nat /\
    (loaded = [] -> st' = st).
Proof.
  intros Hc loaded st'. subst loaded st'.
  unfold exec, handleImageUpload, guard_canvas. rewrite Hc.
  destruct files as [fs|].
  - destruct (uploads_run fs st c Hc) as (c' & Hr & H). exists c'.
    split; [|exact H]. unfold exec in *.
    destruct (for_each fs reader_onload st) as [r st']. cbn in *. now subst r.
  - exists c. cbn. rewrite app_nil_r, Nat.add_0_r. now repeat split.
Qed.

(** X12. New objects take the style current at their creation: after a
    control has set the element colour to [v], the next rectangle, circle
    or triangle has fill [v] and the next line has stroke [v]; after the
    font family, size or colour was set, the next text has that family,
    size or fill. *)
Theorem style_then_create (chg : StyleChange) (st : State) (c : FabricCanvas) :
  canvas st = Some c ->
  let st1 := exec (setStyle chg) st in
  match chg with
  | ElementColor v =>
      (forall type, In type ["rectangle"; "circle"; "triangle"] ->
         option_map Fabric.fill (topmost (exec (addShape type) st1)) = Some (Some v)) /\
      option_map Fabric.stroke (topmost (exec (addShape "line") st1)) = Some (Some v)
  | FontFamily v =>
      option_map Fabric.fontFamily (topmost (exec addText st1)) = Some (Some v)
  | FontSize v =>
      option_map Fabric.fontSize (topmost (exec addText st1)) = Some (Some v)
  | FontColor v =>
      option_map Fabric.fill (topmost (exec addText st1)) = Some (Some v)
  end.
Proof.
  intros Hc st1.
  assert (Hst1 : canvas st1 <> None /\ st1 = with_canvas (canvas st1) (changed chg st)).
  { destruct (setStyle_uncommitted chg st) as (_ & _ & Hn). split; [apply Hn; congruence|].
    subst st1. destruct st as [cv fs ff fc ec h ts hp]. cbn [canvas] in Hc. subst cv.
    destruct chg; unfold setStyle, setFontFamily, setFontSize, setFontColor,
      setElementColor, updateSelectedObject, exec, bind, modify, guard_canvas,
      canvas_getActiveObject, gets, ret;
      cbn [fontFamily fontSize fontColor elementColor];
      match goal with
      | |- context [String.eqb ?a ?b] => destruct (String.eqb_spec a b) as [->|]
      | |- context [Z.eqb ?a ?b] => destruct (Z.eqb_spec a b) as [->|]
      end; cbn; try reflexivity;
      destruct (Fabric.getActiveObject c) as [o|]; cbn; try reflexivity;
      destruct (Fabric.type (Fabric.props o)); cbn; reflexivity. }
  destruct Hst1 as (Hc1 & Hch). clearbody st1.
  destruct (canvas st1) as [c1|] eqn:E1; [clear Hc1 | congruence].
  subst st1. clear E1.
  destruct st as [cv fs ff fc ec h ts hp].
  destruct chg; repeat split; try (intros type [<- | [<- | [<- | []]]]);
    unfold topmost, exec; cbn;
    match goal with
    | |- context [peek (?l ++ [?x])] =>
        change (l ++ [x]) with (push l x); now rewrite JSFacts.peek_push
    end.
Qed.

(** X13. A text and its first confirmed edit make one history entry, not
    two: [addText] records nothing and the object-modified hook pushes one
    snapshot; one [undo] then restores the snapshot of before the text,
    so the text is gone altogether. *)
Theorem text_edit_one_entry (st : State) (c : FabricCanvas) (ps : list string)
    (jp : Fabric.CanvasJSON) (r : nat) (f : Fabric.Props -> Fabric.Props) :
  canvas st = Some c ->
  past (historyRef st) = ps ++ [JSON_stringify jp] ->
  let st1 := exec addText st in
  let st2 := exec (transform r f) st1 in
  historyRef st1 = historyRef st /\
  List.length (past (historyRef st2)) = S (List.length (past (historyRef st))) /\
  future (historyRef st2) = [] /\
  exists st3,
    undo st2 = (Returned tt, st3) /\
    surface st3 = Some jp /\
    past (historyRef st3) = past (historyRef st) /\
    List.length (future (historyRef st3)) = 1%nat.
Proof.
  intros Hc Hp st1 st2.
  destruct st as [cv sz ff fc ec h ts hp]. cbn [canvas historyRef] in Hc, Hp. subst cv.
  split; [reflexivity|]. split; [subst st2 st1; cbn; now rewrite JSFacts.length_push|].
  split; [reflexivity|].
  assert (Hc2 : exists c2, canvas st2 = Some c2 /\
                           past (historyRef st2) = ps ++ [JSON_stringify jp; capture c2] /\
                           future (historyRef st2) = []).
  { eexists. subst st2 st1. cbn. rewrite Hp. unfold push. rewrite <- app_assoc.
    now repeat split. }
  destruct Hc2 as (c2 & Hc2 & Hp2 & Hf2).
  eexists. split.
  - apply (undo_step st2 c2 ps _ _ jp Hc2 Hp2); [apply JSON_stringify_truthy |
      apply JSON_parse_stringify].
  - split; [unfold surface, restored; cbn [canvas option_map];
            now rewrite toJSON_loadFromJSON|].
    split; [cbn [restored historyRef past]; now rewrite Hp|].
    cbn [restored historyRef future]. rewrite Hf2. reflexivity.
Qed.

(** X14. Before the mount has set the canvas, every button and callback
    returns at its guard: the state, toasts included, is as it was. *)
Theorem nothing_before_mount (st : State) :
  canvas st = None ->
  undo st = (Returned tt, st) /\
  redo st = (Returned tt, st) /\
  deleteSelected st = (Returned tt, st) /\
  (forall type, addShape type st = (Returned tt, st)) /\
  addText st = (Returned tt, st) /\
  (forall files, handleImageUpload files st = (Returned tt, st)) /\
  updateSelectedObject st = (Returned tt, st) /\
  (forall d, moveLayer d st = (Returned tt, st)) /\
  bringToFront st = (Returned tt, st) /\
  sendToBack st = (Returned tt, st).
Proof.
  intros H.
  unfold undo, redo, deleteSelected, addShape, addText, handleImageUpload,
    updateSelectedObject, moveLayer, bringToFront, sendToBack, guard_canvas.
  rewrite H. repeat split.
Qed.

(** X15. In every session after the mount the history stays well formed:
    the canvas is there, [past] is never empty and every entry of both
    stacks is a snapshot taken by [saveState]; so no handler but a layer
    control throws, [undo] and [redo] included.  A layer control either
    shows its notice (nothing selected) or throws a [TypeError] (an
    object selected), and leaves everything else as it was. *)
Theorem session_safe (evs : list Event) (ev : Event) :
  let st := session evs (exec (mount true) initialState) in
  canvas st <> None /\
  past (historyRef st) <> [] /\
  Forall captured (past (historyRef st) ++ future (historyRef st)) /\
  (layer_control ev = false -> fst (handle ev st) = Returned tt) /\
  (layer_control ev = true ->
   handle ev st = (Thrown TypeError, st) \/
   handle ev st =
     (Returned tt, with_toasts (toasts st ++ ["Please select an element first!"]) st)).
Proof.
  intros st. pose proof (session_ok evs _ mounted_ok) as Hok. fold st in Hok.
  destruct (handle_ok ev st Hok) as [Hr _].
  destruct Hok as (Hc & Hp & Hall).
  split; [exact Hc|]. split; [exact Hp|]. split; [exact Hall|]. split; [exact Hr|].
  intros Hl. destruct ev as [k | | | | | |]; try discriminate Hl. cbn [handle].
  pose proof (layer_entry_run k st Hl) as Hrun.
  destruct (canvas st) as [c|]; [|congruence].
  destruct (Fabric.getActiveObject c); [now left | now right].
Qed.

End ObjectsMore.

(* ================================================================== *)
(** * Export *)

Section ExportMore.

Context {codec : JSONCodec}.
Variable toSVG : FabricCanvas -> string.
Variable createObjectURL : string -> string.
Variable toDataURL : FabricCanvas -> Format -> string.

Lemma same_document_toasts (t : list string) (st : State) :
  same_document (with_toasts t st) st.
Proof. reflexivity. Qed.

Lemma same_document_trans (st1 st2 st3 : State) :
  same_document st1 st2 -> same_document st2 st3 -> same_document st1 st3.
Proof. unfold same_document. intros -> ->. reflexivity. Qed.

Lemma restored_toasts (j : Fabric.CanvasJSON) (msg : string) (h : History)
    (c : FabricCanvas) (t : list string) (st : State) :
  same_document (restored j msg h c (with_toasts t st)) (restored j msg h c st).
Proof. reflexivity. Qed.

Lemma undo_toasts (t : list string) (st : State) :
  fst (undo (with_toasts t st)) = fst (undo st) /\
  same_document (exec undo (with_toasts t st)) (exec undo st).
Proof.
  unfold exec, undo. cbn [canvas with_toasts historyRef].
  destruct (canvas st) as [c|] eqn:Ec; [|now split].
  destruct (List.length (past (historyRef st)) <=? 1)%nat; [now split|].
  destruct (pop (past (historyRef st))) as [[cur|] past1]; [|now split].
  destruct (truthy cur); [|now split].
  rewrite !(restore_run _ _ c) by (cbn; exact Ec).
  cbn [historyRef with_history with_toasts past future].
  destruct (peek past1) as [p|]; [|now split].
  destruct (JSON_parse p); now split.
Qed.

Lemma redo_toasts (t : list string) (st : State) :
  fst (redo (with_toasts t st)) = fst (redo st) /\
  same_document (exec redo (with_toasts t st)) (exec redo st).
Proof.
  unfold exec, redo. cbn [canvas with_toasts historyRef].
  destruct (canvas st) as [c|] eqn:Ec; [|now split].
  destruct (List.length (future (historyRef st)) =? 0)%nat; [now split|].
  destruct (pop (future (historyRef st))) as [[next|] future1]; [|now split].
  destruct (truthy next); [|now split].
  rewrite !(restore_run _ _ c) by (cbn; exact Ec).
  cbn [historyRef with_history with_toasts past future].
  destruct (JSON_parse next); now split.
Qed.

(** No handler reads the toasts: on two states with the same document a
    handler has the same outcome and leaves the same document. *)
Lemma handle_toasts (ev : Event) (t : list string) (st : State) :
  fst (handle ev (with_toasts t st)) = fst (handle ev st) /\
  same_document (exec (handle ev) (with_toasts t st)) (exec (handle ev) st).
Proof.
  destruct ev as [k | | chg | r | r f | |]; cbn [handle];
    [ | | | | | apply undo_toasts | apply redo_toasts ];
    destruct st as [[c|] fs ff fc ec h ts hp].
  - destruct k; cbn [entry].
    + unfold addShape, guard_canvas, exec, bind, gets. cbn [canvas with_toasts elementColor].
      destruct (shape_options type ec); now split.
    + unfold deleteSelected, guard_canvas, exec, bind, canvas_getActiveObject, gets.
      cbn [canvas with_toasts]. destruct (Fabric.getActiveObject c); now split.
    + now split.
    + unfold moveLayer, guard_canvas, exec, bind, canvas_getActiveObject, gets.
      cbn [canvas with_toasts]. destruct (Fabric.getActiveObject c); [|now split].
      destruct direction; now split.
    + unfold bringToFront, guard_canvas, exec, bind, canvas_getActiveObject, gets.
      cbn [canvas with_toasts]. destruct (Fabric.getActiveObject c); now split.
    + unfold sendToBack, guard_canvas, exec, bind, canvas_getActiveObject, gets.
      cbn [canvas with_toasts]. destruct (Fabric.getActiveObject c); now split.
    + now split.
  - destruct k; now split.
  - now split.
  - now split.
  - destruct chg; unfold setStyle, setFontFamily, setFontSize, setFontColor,
      setElementColor, updateSelectedObject, exec, bind, modify, guard_canvas,
      canvas_getActiveObject, gets, ret;
      cbn [with_toasts fontFamily fontSize fontColor elementColor];
      match goal with |- context [if ?b then _ else _] => destruct b end;
      cbn; try (now split);
      destruct (Fabric.getActiveObject c) as [o|]; cbn; try (now split);
      destruct (Fabric.type (Fabric.props o)); now split.
  - destruct chg; unfold setStyle, setFontFamily, setFontSize, setFontColor,
      setElementColor, exec, bind, gets, ret;
      cbn [with_toasts fontFamily fontSize fontColor elementColor];
      match goal with |- context [if ?b then _ else _] => destruct b end;
      now split.
  - now split.
  - now split.
  - now split.
  - now split.
Qed.

Lemma session_toasts (evs : list Event) :
  forall st1 st2, same_document st1 st2 ->
                  same_document (session evs st1) (session evs st2).
Proof.
  induction evs as [|ev evs IH]; intros st1 st2 H; [exact H|].
  cbn [session fold_left]. apply IH. unfold same_document in H. rewrite H.
  apply handle_toasts.
Qed.

(** X16. [saveCanvas] only exports: it changes nothing but the toasts
    (one more, naming the format in upper case, when the canvas is there)
    and names the file [canvas-export.html] or [canvas-image.<format>]; and
    since no handler reads the toasts, a session that follows an export
    does to the canvas, the styles and the history exactly what it does
    without the export. *)
Theorem saveCanvas_only_exports (format : Format) (evs : list Event) (st : State) :
  let st' := exec (saveCanvas toSVG createObjectURL toDataURL format) st in
  same_document st' st /\
  same_document (session evs st') (session evs st) /\
  match canvas st with
  | None => saveCanvas toSVG createObjectURL toDataURL format st = (Returned None, st)
  | Some c =>
      exists link,
        saveCanvas toSVG createObjectURL toDataURL format st = (Returned (Some link), st') /\
        toasts st' = toasts st ++ [("Canvas saved as " ++ format_upper format ++ "!")%string] /\
        download link = match format with
                        | html => "canvas-export.html"
                        | _ => ("canvas-image." ++ format_text format)%string
                        end /\
        href link = match format with
                    | html => createObjectURL (htmlContent (toSVG c))
                    | _ => toDataURL c format
                    end
  end.
Proof.
  intros st'.
  assert (H : same_document st' st).
  { subst st'. unfold exec, saveCanvas. destruct st as [[c|] fs ff fc ec h ts hp]; reflexivity. }
  split; [exact H|]. split; [now apply session_toasts|].
  subst st'. unfold exec, saveCanvas. destruct (canvas st) as [c|]; [|reflexivity].
  destruct format; eexists; cbn; repeat split.
Qed.

End ExportMore.

(* ================================================================== *)
(** * The layer controls *)

Section LayerControls.

Context {codec : JSONCodec}.

Lemma same_document_refl (st : State) : same_document st st.
Proof. now destruct st. Qed.

(** A layer control leaves the document as it was, whatever the state. *)
Lemma layer_press_keeps_document (ev : Event) (st : State) :
  layer_control ev = true -> same_document (exec (handle ev) st) st.
Proof.
  intros Hl. destruct ev as [k | | | | | |]; try discriminate Hl. cbn [handle].
  pose proof (layer_entry_run k st Hl) as Hrun. unfold exec.
  destruct (canvas st) as [c|]; [destruct (Fabric.getActiveObject c)|];
    rewrite Hrun; cbn [snd];
    first [apply same_document_refl | apply same_document_toasts].
Qed.

(** X8. [sendToBack] with an object selected throws a [TypeError] at its
    call [canvas.sendToBack(activeObject)], which is no method of the
    canvas: the state is the one of before, so nothing is reordered,
    rendered or recorded, and [Sent to back] is not shown. *)
Theorem sendToBack_throws (st : State) (c : FabricCanvas) (o : Fabric.Object) :
  canvas st = Some c ->
  Fabric.getActiveObject c = Some o ->
  sendToBack st = (Thrown TypeError, st) /\
  canvas (exec sendToBack st) = Some c /\
  historyRef (exec sendToBack st) = historyRef st /\
  toasts (exec sendToBack st) = toasts st.
Proof.
  intros Hc Ha. destruct (layer_controls_throw st c o Hc Ha) as (_ & _ & H).
  unfold exec. rewrite H. cbn [snd]. now repeat split.
Qed.

(** X9. [moveLayer] with an object selected throws a [TypeError], in
    either direction, at [canvas.bringForward(activeObject)] or
    [canvas.sendBackwards(activeObject)], neither of which is a method of
    the canvas: the state is the one of before, so the order of the
    objects does not change, nothing is recorded, and neither
    [Moved layer forward] nor [Moved layer backward] is shown. *)
Theorem moveLayer_throws (d : Direction) (st : State) (c : FabricCanvas)
    (o : Fabric.Object) :
  canvas st = Some c ->
  Fabric.getActiveObject c = Some o ->
  moveLayer d st = (Thrown TypeError, st) /\
  canvas (exec (moveLayer d) st) = Some c /\
  historyRef (exec (moveLayer d) st) = historyRef st /\
  toasts (exec (moveLayer d) st) = toasts st.
Proof.
  intros Hc Ha. destruct (layer_controls_throw st c o Hc Ha) as (H & _).
  unfold exec. rewrite (H d). cbn [snd]. now repeat split.
Qed.

(** X10. The layer controls change nothing but the toasts, in any state:
    a session and the same session with every press of a layer control
    left out end with the same canvas, the same styles and the same
    history. *)
Theorem layer_controls_inert (evs : list Event) (st : State) :
  same_document (session evs st)
                (session (filter (fun ev => negb (layer_control ev)) evs) st).
Proof.
  revert st. induction evs as [|ev evs IH]; intros st; [apply same_document_refl|].
  cbn [session fold_left filter].
  destruct (layer_control ev) eqn:Hl; cbn [negb].
  - apply (same_document_trans _ (session evs st)); [|apply IH].
    apply session_toasts. now apply layer_press_keeps_document.
  - cbn [session fold_left]. apply IH.
Qed.

End LayerControls.

(* ================================================================== *)
(** * The earlier revision: what its history misses *)

Section EarlierRevision.

Context {codec : JSONCodec} {laws : JSONLaws codec}.

Lemma put_keeps (a : CanvasTsx.Addition) (st : State) (c : FabricCanvas) :
  canvas st = Some c ->
  (exists c', canvas (exec (CanvasTsx.put a) st) = Some c') /\
  historyRef (exec (CanvasTsx.put a) st) = historyRef st.
Proof.
  intros Hc. destruct st as [c0 fs ff fc ec h ts hp]. cbn in Hc. subst c0.
  destruct a as [type| |]; unfold exec; cbn [CanvasTsx.put].
  - unfold CanvasTsx.addShape, guard_canvas. cbn [canvas].
    destruct (CanvasTsx.shape_options type); cbn; split; eauto.
  - cbn; split; eauto.
  - cbn; split; eauto.
Qed.

Lemma put_all_keeps (l : list CanvasTsx.Addition) :
  forall (st : State) (c : FabricCanvas),
    canvas st = Some c ->
    (exists c', canvas (CanvasTsx.put_all l st) = Some c') /\
    historyRef (CanvasTsx.put_all l st) = historyRef st.
Proof.
  induction l as [|a l IH]; intros st c Hc; [split; eauto|].
  unfold CanvasTsx.put_all. cbn [fold_left].
  destruct (put_keeps a st c Hc) as [[c' Hc'] Hh].
  destruct (IH _ c' Hc') as [Hc2 Hh2]. split; [exact Hc2|].
  unfold CanvasTsx.put_all in Hh2. now rewrite Hh2.
Qed.

(** X17. In the earlier revision nothing that is added is recorded:
    after the mount and any run of additions (shapes, texts, images) the
    history is still the mount's single snapshot, so [undo] does nothing;
    and once a first modification is recorded, one [undo] takes the
    surface back to the empty mounted canvas, all additions at once. *)
Theorem earlier_additions_lost_together (l : list CanvasTsx.Addition)
    (st : State) (c0 : FabricCanvas) :
  canvas st = Some c0 ->
  historyRef st = mkHistory [capture c0] [] ->
  let st1 := CanvasTsx.put_all l st in
  historyRef st1 = historyRef st /\
  CanvasTsx.undo st1 = (Returned tt, st1) /\
  exists st3,
    (on_object_modified ;; CanvasTsx.undo) st1 = (Returned tt, st3) /\
    surface st3 = Some (Fabric.toJSON c0) /\
    past (historyRef st3) = [capture c0] /\
    List.length (future (historyRef st3)) = 1%nat.
Proof.
  intros Hc Hh st1.
  destruct (put_all_keeps l st c0 Hc) as [[c1 Hc1] Hh1].
  fold st1 in Hc1, Hh1. rewrite Hh in Hh1.
  split; [now rewrite Hh1, Hh|].
  split.
  { unfold CanvasTsx.undo. now rewrite Hc1, Hh1. }
  unfold bind, on_object_modified, on_canvas. rewrite Hc1.
  unfold saveState, bind, modify. cbn [fst snd].
  unfold CanvasTsx.undo. cbn [canvas with_history historyRef past future].
  rewrite Hc1, Hh1. cbn [past future push List.length app Nat.leb].
  change ([capture c0; JSON_stringify (Fabric.toJSON c1)])
    with (push [capture c0] (JSON_stringify (Fabric.toJSON c1))).
  rewrite JSFacts.pop_push, JSON_stringify_truthy.
  cbn [historyRef with_history past future].
  rewrite JSFacts.peek_push || cbn [peek last].
  unfold bind at 1. unfold parse, capture. rewrite JSON_parse_stringify. unfold ret.
  unfold CanvasTsx.canvas_loadFromJSON, on_canvas. cbn [canvas with_history].
  rewrite Hc1. unfold bind at 1. rewrite for_each_revived.
  unfold modify. eexists. split; [reflexivity|].
  unfold surface. cbn [canvas with_heap with_canvas with_toasts with_history
                         option_map historyRef past future].
  rewrite Hc1. cbn [option_map]. split; [|split; reflexivity].
  f_equal. apply toJSON_loadFromJSON.
Qed.

End EarlierRevision.

(* ================================================================== *)
(** * Witnesses and counterexamples on concrete runs *)

(** Witness of C1: scenario A's two records, undone twice and redone
    twice. *)
Lemma undo_redo_inverse_witness :
  let c0 := Fabric.create "#ffffff" in
  let cs := [Runs.surface_1; Runs.surface_2] in
  let st := exec (mount true ;; records cs) initialState in
  exists st',
    (times 2 undo ;; times 2 redo) st = (Returned tt, st') /\
    past (historyRef st) = map capture (c0 :: cs) /\
    past (historyRef st') = map capture (c0 :: cs) /\
    future (historyRef st') = [] /\
    surface st' = Some (Fabric.toJSON Runs.surface_2) /\
    option_map capture (canvas st') = Some (capture Runs.surface_2).
Proof.
  exact (@undo_redo_inverse refCodec refCodec_laws [Runs.surface_1; Runs.surface_2]).
Defined.

(** Witness of C2: a new shape after an [undo] empties the pending
    [future]. *)
Lemma record_clears_future_witness :
  future (historyRef Runs.undone) <> [] /\
  commits (ShapeCreated "circle") Runs.undone = true /\
  future (historyRef (exec (entry (ShapeCreated "circle")) Runs.undone)) = [].
Proof.
  split; [vm_compute; discriminate|].
  split; [vm_compute; reflexivity|].
  apply (proj1 (proj2 (@record_clears_future refCodec Runs.undone)) (ShapeCreated "circle")).
  vm_compute. reflexivity.
Defined.

(** Witness of C3: the first rectangle on the mounted, empty scene. *)
Lemma addShape_records_witness :
  canvas Runs.mounted = Some (Fabric.create "#ffffff") /\
  List.length (past (historyRef Runs.mounted)) = 1%nat /\
  List.length (past (historyRef (exec (addShape "rectangle") Runs.mounted))) = 2%nat.
Proof.
  split; [reflexivity|]. split; [reflexivity|].
  destruct (@addShape_records refCodec "rectangle" Runs.mounted (Fabric.create "#ffffff"))
    as (options & c' & H); [reflexivity | simpl; now left |].
  cbv zeta in H. destruct H as (_ & _ & _ & _ & _ & _ & _ & _ & _ & _ & Hlen & _).
  exact Hlen.
Defined.

(** Counterexample to C4 as stated: [undo] on a history whose entry under
    the top is malformed throws, and although the surface is untouched the
    two stacks are not as they were: the top of [past] has already moved
    to [future].  So [undo] is not transactional; neither is [redo]. *)
Lemma failed_undo_moves_history :
  let st := Runs.broken_past in
  past (historyRef st) = ["{"; capture (Fabric.create "#ffffff")] /\
  future (historyRef st) = [] /\
  fst (undo st) = Thrown SyntaxError /\
  canvas (exec undo st) = canvas st /\
  past (historyRef (exec undo st)) = ["{"] /\
  future (historyRef (exec undo st)) = [capture (Fabric.create "#ffffff")] /\
  ~ transactional undo /\
  ~ transactional redo.
Proof.
  repeat split.
  - intros H. destruct (H Runs.broken_past SyntaxError eq_refl) as (_ & _ & Hf).
    discriminate Hf.
  - intros H. destruct (H Runs.broken_future SyntaxError eq_refl) as (_ & _ & Hf).
    discriminate Hf.
Qed.

(** Witness of C4's amended form: the failing [undo] and the failing
    [redo] above. *)
Lemma failed_restore_keeps_surface_witness :
  fst (undo Runs.broken_past) = Thrown SyntaxError /\
  fst (redo Runs.broken_future) = Thrown SyntaxError /\
  canvas (exec undo Runs.broken_past) = canvas Runs.broken_past /\
  canvas (exec redo Runs.broken_future) = canvas Runs.broken_future.
Proof.
  split; [reflexivity|]. split; [reflexivity|]. split.
  - destruct (proj1 (@failed_restore_keeps_surface refCodec Runs.broken_past SyntaxError)
                eq_refl) as (ps & s & _ & _ & H & _).
    exact H.
  - destruct (proj2 (@failed_restore_keeps_surface refCodec Runs.broken_future SyntaxError)
                eq_refl) as (fs & s & _ & _ & H & _).
    exact H.
Defined.

(** Witness of C5, with the reference codec: the one snapshot is the
    text of the empty white canvas. *)
Lemma init_single_snapshot_witness :
  past (historyRef Runs.mounted) = ["#ffffff;0;"] /\
  future (historyRef Runs.mounted) = [] /\
  undo Runs.mounted = (Returned tt, Runs.mounted).
Proof.
  pose proof (@init_single_snapshot refCodec) as H. cbv zeta in H.
  destruct H as (Hp & _ & Hf & _ & Hu).
  split; [exact Hp|]. split; [exact Hf | exact Hu].
Defined.

(** Counterexample to C6 as stated: on the mounted canvas, where nothing
    is selected, [deleteSelected] returns without any notice: the toasts
    are the ones shown before.  It is not an operation that reports a
    missing selection. *)
Lemma deleteSelected_reports_nothing :
  let st := Runs.mounted in
  canvas st = Some (Fabric.create "#ffffff") /\
  Fabric.getActiveObject (Fabric.create "#ffffff") = None /\
  deleteSelected st = (Returned tt, st) /\
  toasts (exec deleteSelected st) = toasts st /\
  ~ reports_missing_selection deleteSelected.
Proof.
  repeat split.
  intros H.
  destruct (H Runs.mounted (Fabric.create "#ffffff") eq_refl eq_refl)
    as (_ & (notice & Hn) & _).
  apply (f_equal (@List.length string)) in Hn. discriminate Hn.
Qed.

(** Witness of C6's amended form: the four layer controls and the delete
    button on the mounted canvas with nothing selected. *)
Lemma no_selection_no_record_witness :
  canvas Runs.mounted = Some (Fabric.create "#ffffff") /\
  Fabric.getActiveObject (Fabric.create "#ffffff") = None /\
  deleteSelected Runs.mounted = (Returned tt, Runs.mounted) /\
  toasts (exec bringToFront Runs.mounted)
    = ["Canvas ready!"; "Please select an element first!"] /\
  historyRef (exec bringToFront Runs.mounted) = historyRef Runs.mounted.
Proof.
  pose proof (@no_selection_no_record refCodec Runs.mounted (Fabric.create "#ffffff")
                eq_refl eq_refl) as H.
  cbv zeta in H. destruct H as (Hd & _ & _ & Hf & _ & _ & Hh).
  split; [reflexivity|]. split; [reflexivity|]. split; [exact Hd|].
  unfold exec. rewrite Hf. split; [reflexivity | exact Hh].
Defined.

(** Witness of C7: the font size control set to 32 while the new text is
    selected. *)
Lemma style_change_pushed_witness :
  differs (FontSize 32) Runs.with_text = true /\
  option_map (fun c => option_map (fun o => Fabric.fontSize (Fabric.props o))
                         (Fabric.getActiveObject c))
    (canvas (exec (setStyle (FontSize 32)) Runs.with_text)) = Some (Some (Some 32)) /\
  historyRef (exec (setStyle (FontSize 32)) Runs.with_text) = historyRef Runs.with_text.
Proof.
  split; [reflexivity|].
  destruct (style_change_pushed (FontSize 32) Runs.with_text
              (Fabric.renderAll
                 (Fabric.setActiveObject
                    (Fabric.add (Fabric.create "#ffffff")
                       (Fabric.mkObject 0 (text_options "Arial" "#000000" 20))) 0))
              (Fabric.mkObject 0 (text_options "Arial" "#000000" 20))
              eq_refl eq_refl eq_refl)
    as (f & c' & _ & Hc & _ & Ha & _ & Hh & _ & _ & Hf).
  split; [|exact Hh].
  rewrite Hc. cbn [option_map]. rewrite Ha. cbn [option_map Fabric.props].
  cbn [Fabric.type Fabric.props text_options] in Hf.
  destruct (Hf (text_options "Arial" "#000000" 20)) as (_ & Hs & _).
  rewrite Hs. reflexivity.
Defined.

(** Witness of C8, on the code (scenario C): with the rectangle,
    bottommost of two, selected, two moves backward and then
    [bringToFront] all throw; the rectangle is still at index 0, the
    circle is still the topmost object, and [past] still has its three
    entries. *)
Lemma bringToFront_throws_witness :
  let st := Runs.rect_selected in
  let st2 := exec bringToFront (exec (for_each [down; down] moveLayer) st) in
  option_map (fun c => map Fabric.ref (Fabric._objects c)) (canvas st)
    = Some [0%nat; 1%nat] /\
  option_map (fun c => option_map Fabric.ref (Fabric.getActiveObject c)) (canvas st)
    = Some (Some 0%nat) /\
  bringToFront st = (Thrown TypeError, st) /\
  option_map (fun c => map Fabric.ref (Fabric._objects c)) (canvas st2)
    = Some [0%nat; 1%nat] /\
  List.length (past (historyRef st2)) = 3%nat.
Proof.
  intros st st2. split; [reflexivity|]. split; [reflexivity|].
  destruct (@bringToFront_throws refCodec [down; down] Runs.rect_selected
              Runs.surface_selected
              (Fabric.mkObject 0
                 (Fabric.mkProps Fabric.rect (Some 100) (Some 100) (Some 100) (Some 100)
                    None None (Some "#e2e8f0") None None None None None None))
              eq_refl eq_refl)
    as (Ht & Hst & _ & _).
  split; [exact Ht|]. subst st2. fold st in Hst. rewrite Hst.
  split; reflexivity.
Defined.

(** Witness of C9: a text added to the mounted canvas is on the surface
    and selected, and the history is the one of before. *)
Lemma addText_defers_record_witness :
  historyRef (exec addText Runs.mounted) = historyRef Runs.mounted /\
  option_map (fun c => List.length (Fabric._objects c)) (canvas (exec addText Runs.mounted))
    = Some 1%nat.
Proof.
  destruct (addText_defers_record Runs.mounted) as (_ & Hh & Hc).
  split; [exact Hh|].
  destruct (Hc (Fabric.create "#ffffff") eq_refl) as (c' & Hc' & Ho & _).
  rewrite Hc'. cbn [option_map]. rewrite Ho. reflexivity.
Defined.

(** Witness of C10: with [past] down to its first entry and two entries
    waiting in [future], [undo] changes nothing; with [future] empty,
    [redo] changes nothing. *)
Lemma floored_undo_redo_noop_witness :
  List.length (past (historyRef Runs.floored)) = 1%nat /\
  List.length (future (historyRef Runs.floored)) = 2%nat /\
  undo Runs.floored = (Returned tt, Runs.floored) /\
  future (historyRef Runs.two_shapes) = [] /\
  redo Runs.two_shapes = (Returned tt, Runs.two_shapes).
Proof.
  split; [reflexivity|]. split; [reflexivity|]. split.
  - apply (proj1 (@floored_undo_redo_noop refCodec Runs.floored)).
    vm_compute. lia.
  - split; [reflexivity|].
    apply (proj2 (@floored_undo_redo_noop refCodec Runs.two_shapes)). reflexivity.
Defined.

(** Scenario A, run: after a rectangle and a circle [past] has three
    entries; one [undo] leaves the rectangle alone on the surface, one
    [redo] brings the circle back above it. *)
Example scenario_A :
  List.length (past (historyRef Runs.two_shapes)) = 3%nat /\
  option_map (fun j => map Fabric.type (Fabric.objects j)) (surface Runs.undone)
    = Some [Fabric.rect] /\
  option_map (fun j => map Fabric.type (Fabric.objects j))
    (surface (exec redo Runs.undone)) = Some [Fabric.rect; Fabric.circle] /\
  surface (exec redo Runs.undone) = surface Runs.two_shapes /\
  historyRef (exec redo Runs.undone) = historyRef Runs.two_shapes.
Proof. repeat split. Qed.

(* ================================================================== *)
(** * Witnesses of the further properties *)

(** Witness of X1: the [undo] that throws on the malformed entry still
    leaves one entry in [past]. *)
Lemma past_never_emptied_witness :
  fst (undo Runs.broken_past) = Thrown SyntaxError /\
  past (historyRef (exec undo Runs.broken_past)) <> [] /\
  (2 <= List.length (past (historyRef (exec redo Runs.broken_past))))%nat.
Proof.
  split; [reflexivity|].
  apply (@past_never_emptied refCodec Runs.broken_past). vm_compute. discriminate.
Defined.

(** Witness of X2: scenario A after one [undo]. *)
Lemma timeline_kept_witness :
  timeline (historyRef (exec undo Runs.undone)) = timeline (historyRef Runs.two_shapes) /\
  timeline (historyRef (exec redo Runs.undone)) = timeline (historyRef Runs.two_shapes).
Proof.
  apply (@timeline_kept refCodec Runs.undone).
  vm_compute. repeat constructor.
Defined.

(** Witness of X3: an empty text on top of each stack of the mounted
    component. *)
Lemma falsy_top_dropped_witness :
  let s0 := capture (Fabric.create "#ffffff") in
  let st := with_history (mkHistory [s0; EmptyString] [EmptyString]) Runs.mounted in
  undo st = (Returned tt, with_history (mkHistory [s0] [EmptyString]) Runs.mounted) /\
  redo st = (Returned tt, with_history (mkHistory [s0; EmptyString] []) Runs.mounted).
Proof.
  intros s0 st.
  destruct (@falsy_top_dropped refCodec st (Fabric.create "#ffffff") eq_refl) as [Hu Hr].
  split.
  - exact (Hu [] s0 eq_refl).
  - exact (Hr [] eq_refl).
Defined.

(** Witness of X4: scenario A, one [undo] and one [redo]. *)
Lemma undo_then_redo_witness :
  exists st',
    (undo ;; redo) Runs.two_shapes = (Returned tt, st') /\
    historyRef st' = historyRef Runs.two_shapes /\
    surface st' = Some (Fabric.toJSON Runs.surface_2).
Proof.
  apply (@undo_then_redo refCodec refCodec_laws Runs.two_shapes Runs.surface_2
           [capture (Fabric.create "#ffffff")]
           (Fabric.toJSON Runs.surface_1) (Fabric.toJSON Runs.surface_2)).
  - reflexivity.
  - reflexivity.
Defined.

(** Witness of X5: a star is no kind of shape. *)
Lemma addShape_unknown_kind_witness :
  addShape "star" Runs.mounted = (Returned tt, Runs.mounted).
Proof.
  apply (@addShape_unknown_kind refCodec "star" Runs.mounted).
  simpl. intuition discriminate.
Defined.

(** Witness of X6: the selected rectangle of scenario A is deleted; the
    circle stays. *)
Lemma deleteSelected_removes_witness :
  let st' := exec deleteSelected Runs.rect_selected in
  option_map (fun c => map Fabric.ref (Fabric._objects c)) (canvas Runs.rect_selected)
    = Some [0%nat; 1%nat] /\
  option_map (fun c => map Fabric.ref (Fabric._objects c)) (canvas st')
    = Some [1%nat] /\
  List.length (past (historyRef st')) = 4%nat /\
  deleteSelected st' = (Returned tt, st').
Proof.
  intros st'. split; [reflexivity|].
  destruct (@deleteSelected_removes refCodec Runs.rect_selected Runs.surface_selected
              (Fabric.mkObject 0
                 (Fabric.mkProps Fabric.rect (Some 100) (Some 100) (Some 100) (Some 100)
                    None None (Some "#e2e8f0") None None None None None None))
              eq_refl eq_refl)
    as (c' & _ & Hc & Ho & _ & _ & _ & Hp & _ & Hd).
  fold st' in Hc, Hp, Hd.
  split; [|split; [|exact Hd]].
  - rewrite Hc. cbn [option_map]. rewrite Ho. reflexivity.
  - rewrite Hp, length_app. reflexivity.
Defined.

(** Witness of X7: a circle added to the mounted canvas and deleted. *)
Lemma addShape_then_delete_witness :
  let st2 := exec deleteSelected (exec (addShape "circle") Runs.mounted) in
  surface st2 = surface Runs.mounted /\
  List.length (past (historyRef st2)) = 3%nat /\
  peek (past (historyRef st2)) = peek (past (historyRef Runs.mounted)).
Proof.
  destruct (@addShape_then_delete refCodec "circle" Runs.mounted (Fabric.create "#ffffff"))
    as (Hs & _ & Hl & Hp & _).
  - reflexivity.
  - simpl. tauto.
  - constructor.
  - cbv zeta. split; [exact Hs|]. split; [exact Hl|]. rewrite Hp. reflexivity.
Defined.

(** Witness of X8: the circle of scenario A, selected since it was
    added, stays above the rectangle. *)
Lemma sendToBack_throws_witness :
  sendToBack Runs.two_shapes = (Thrown TypeError, Runs.two_shapes) /\
  option_map (fun c => map Fabric.ref (Fabric._objects c))
    (canvas (exec sendToBack Runs.two_shapes)) = Some [0%nat; 1%nat] /\
  List.length (past (historyRef (exec sendToBack Runs.two_shapes))) = 3%nat.
Proof.
  destruct (@sendToBack_throws refCodec Runs.two_shapes Runs.surface_2
              (Fabric.mkObject 1
                 (Fabric.mkProps Fabric.circle (Some 100) (Some 100) None None
                    (Some 50) None (Some "#e2e8f0") None None None None None None))
              eq_refl eq_refl)
    as (Ht & Hc & Hh & _).
  split; [exact Ht|]. rewrite Hc, Hh. split; reflexivity.
Defined.

(** Witness of X9: the selected rectangle of scenario A does not move
    up. *)
Lemma moveLayer_throws_witness :
  moveLayer up Runs.rect_selected = (Thrown TypeError, Runs.rect_selected) /\
  option_map (fun c => map Fabric.ref (Fabric._objects c))
    (canvas (exec (moveLayer up) Runs.rect_selected)) = Some [0%nat; 1%nat] /\
  toasts (exec (moveLayer up) Runs.rect_selected) = toasts Runs.rect_selected.
Proof.
  destruct (@moveLayer_throws refCodec up Runs.rect_selected Runs.surface_selected
              (Fabric.mkObject 0
                 (Fabric.mkProps Fabric.rect (Some 100) (Some 100) (Some 100) (Some 100)
                    None None (Some "#e2e8f0") None None None None None None))
              eq_refl eq_refl)
    as (Ht & Hc & _ & Hto).
  split; [exact Ht|]. rewrite Hc. split; [reflexivity | exact Hto].
Defined.

(** Witness of X11: four files chosen, the second without a reader
    result, the third with a result that is no image. *)
Lemma upload_adds_and_records_witness :
  let files := Some [mkLoaded true true 10 20; mkLoaded false false 0 0;
                     mkLoaded true false 7 7; mkLoaded true true 30 5] in
  let st' := exec (handleImageUpload files) Runs.mounted in
  option_map (fun c => map (fun p => (Fabric.left p, Fabric.top p))
                         (map Fabric.props (Fabric._objects c))) (canvas st')
    = Some [(Some 60, Some 70); (Some 80, Some 55)] /\
  List.length (past (historyRef st')) = 3%nat.
Proof.
  intros files st'.
  destruct (@upload_adds_and_records refCodec files Runs.mounted (Fabric.create "#ffffff")
              eq_refl)
    as (c' & _ & Hc & Ho & _ & Hl & _).
  fold st' in Hc, Hl. split.
  - rewrite Hc. cbn [option_map]. rewrite Ho. reflexivity.
  - rewrite Hl. reflexivity.
Defined.

(** Witness of X12: the element colour set to red, then a rectangle and
    a line. *)
Lemma style_then_create_witness :
  let st1 := exec (setStyle (ElementColor "#ff0000")) Runs.mounted in
  option_map Fabric.fill (topmost (exec (addShape "rectangle") st1)) = Some (Some "#ff0000") /\
  option_map Fabric.stroke (topmost (exec (addShape "line") st1)) = Some (Some "#ff0000").
Proof.
  intros st1.
  destruct (@style_then_create refCodec (ElementColor "#ff0000") Runs.mounted
              (Fabric.create "#ffffff") eq_refl) as [Hf Hs].
  split; [|exact Hs]. apply Hf. simpl. tauto.
Defined.

(** Witness of X13: a text added to the mounted canvas and given a red
    fill, then one [undo]. *)
Lemma text_edit_one_entry_witness :
  let f := set_fill "#ff0000" in
  let st2 := exec (transform 0 f) (exec addText Runs.mounted) in
  List.length (past (historyRef st2)) = 2%nat /\
  exists st3,
    undo st2 = (Returned tt, st3) /\
    surface st3 = surface Runs.mounted /\
    past (historyRef st3) = past (historyRef Runs.mounted).
Proof.
  intros f st2.
  destruct (@text_edit_one_entry refCodec refCodec_laws Runs.mounted (Fabric.create "#ffffff")
              [] (Fabric.toJSON (Fabric.create "#ffffff")) 0%nat f eq_refl eq_refl)
    as (_ & Hl & _ & st3 & Hu & Hs & Hp & _).
  split; [exact Hl|]. exists st3. split; [exact Hu|]. split; [exact Hs | exact Hp].
Defined.

(** Witness of X14: the component before its mount effect. *)
Lemma nothing_before_mount_witness :
  undo initialState = (Returned tt, initialState) /\
  addShape "rectangle" initialState = (Returned tt, initialState) /\
  sendToBack initialState = (Returned tt, initialState).
Proof.
  destruct (@nothing_before_mount refCodec initialState eq_refl)
    as (Hu & _ & _ & Ha & _ & _ & _ & _ & _ & Hs).
  split; [exact Hu|]. split; [exact (Ha "rectangle") | exact Hs].
Defined.

(** Witness of X15: a rectangle, an [undo], and then a [redo], which
    returns; after the rectangle alone, which is selected, the
    bring-to-front control throws. *)
Lemma session_safe_witness :
  let st := session [Committing (ShapeCreated "rectangle"); UndoPressed] Runs.mounted in
  let st1 := session [Committing (ShapeCreated "rectangle")] Runs.mounted in
  past (historyRef st) <> [] /\
  fst (handle RedoPressed st) = Returned tt /\
  handle (Committing BroughtToFront) st1 = (Thrown TypeError, st1).
Proof.
  intros st st1.
  destruct (@session_safe refCodec refCodec_laws
              [Committing (ShapeCreated "rectangle"); UndoPressed] RedoPressed)
    as (_ & Hp & _ & Hr & _).
  split; [exact Hp|]. split; [exact (Hr eq_refl)|]. reflexivity.
Defined.

(** Witness of X17: a rectangle, a text and an image on the earlier
    revision's canvas, one modification, one [undo]. *)
Lemma earlier_additions_lost_together_witness :
  let st1 := CanvasTsx.put_all [CanvasTsx.Shape "rectangle"; CanvasTsx.Text; CanvasTsx.Image]
               Runs.mounted in
  option_map (fun c => List.length (Fabric._objects c)) (canvas st1) = Some 3%nat /\
  CanvasTsx.undo st1 = (Returned tt, st1) /\
  exists st3,
    (on_object_modified ;; CanvasTsx.undo) st1 = (Returned tt, st3) /\
    surface st3 = surface Runs.mounted.
Proof.
  intros st1. split; [reflexivity|].
  destruct (@earlier_additions_lost_together refCodec refCodec_laws
              [CanvasTsx.Shape "rectangle"; CanvasTsx.Text; CanvasTsx.Image]
              Runs.mounted (Fabric.create "#ffffff") eq_refl eq_refl)
    as (_ & Hu & st3 & Hm & Hs & _).
  split; [exact Hu|]. exists st3. split; [exact Hm | exact Hs].
Defined.

(** Witness of X18: a rectangle, an [undo], then a circle: one entry
    above the first, undone and redone. *)
Lemma session_undo_redo_witness :
  let st := exec (entry (ShapeCreated "circle"))
              (session [Committing (ShapeCreated "rectangle"); UndoPressed] Runs.mounted) in
  List.length (past (historyRef st)) = 2%nat /\
  exists st',
    (times 1 undo ;; times 1 redo) st = (Returned tt, st') /\
    past (historyRef st') = past (historyRef st) /\
    future (historyRef st') = [] /\
    surface st' = surface st.
Proof.
  intros st. split; [reflexivity|].
  exact (@session_undo_redo refCodec refCodec_laws
           [Committing (ShapeCreated "rectangle"); UndoPressed] (ShapeCreated "circle")
           eq_refl).
Defined.
